(** * SPX data pipeline CLI: configuration engine and table lifecycle

    A shallow embedding of the TypeScript sources

    - [src/types/errors/ConfigurationError.ts]
    - [src/types/domain/Configuration.ts]
    - [src/types/domain/ConfigurationValidation.ts]
    - [src/infrastructure/database/ConfigurationRepository.ts]
    - [src/infrastructure/database/DatabaseInitialization.ts]
    - [src/cli/config/ConfigurationService.ts]
    - [src/cli/commands/database.ts]

    Effects of the [effect] library are state-passing functions over the
    SQLite database, returning an [Exit]; [console.log] output is not part
    of the model.  The first part holds the definitions, the second the
    properties. *)

From Stdlib Require Import ZArith String Ascii List Lia DecimalString.
From stdpp Require Import base option gmap strings list sorting.

Local Open Scope Z_scope.

(** ** Error taxonomy ([ConfigurationError.ts]) *)

(** What the SQL engine reports when a statement fails.  The only failure
    the statements of this program can meet on an open database is a
    reference to a table that is not in the catalog. *)
Inductive SqlError : Type :=
| NoSuchTable (name : string).

(** [ConfigurationError], together with the plain JavaScript [Error] the
    table lifecycle code and the CLI commands raise with [new Error(msg)]. *)
Inductive Error : Type :=
| ConfigurationValidationError (key value reason : string)
| ConfigurationNotFoundError (key : string)
| ConfigurationPersistenceError (operation : string) (cause : SqlError)
| DatabaseConnectionError (path : string) (cause : SqlError)
| JsError (message : string).

(** [String(error)]: an [Error] prints as its name and message, the tagged
    plain objects of [ConfigurationError] as every plain object does. *)
Definition String_of_error (e : Error) : string :=
  match e with
  | JsError m => "Error: " +:+ m
  | _ => "[object Object]"
  end.

Definition isValidationError (e : Error) : bool :=
  match e with ConfigurationValidationError _ _ _ => true | _ => false end.

(** ** The database *)

(** A row of [configuration] without its primary key. *)
Record Row : Type := mkRow { row_value : string; row_updated_at : string }.

(** [configuration(key TEXT PRIMARY KEY, value TEXT NOT NULL, updated_at)]:
    the primary key makes the table a finite map from [key] to the other
    columns.  The catalog maps a table name to the table's rows. *)
Abbreviation Table := (gmap string Row).
Abbreviation Database := (gmap string (gmap string Row)).

(** The persisted form handed out by the repository. *)
Record ConfigurationRecord : Type :=
  mkRecord { key : string; value : string; updated_at : string }.

(** ** Effects *)

Inductive Exit (E A : Type) : Type :=
| Failure (e : E)
| Success (a : A).
Arguments Failure {E A} e.
Arguments Success {E A} a.

(** An effect that needs the [SqlClient] service: it runs against the
    database and leaves it in a new state. *)
Definition Effect (E A : Type) : Type := Database → Exit E A * Database.

Module Eff.

Definition succeed {E A} (a : A) : Effect E A := λ db, (Success a, db).

Definition fail {E A} (e : E) : Effect E A := λ db, (Failure e, db).

Definition bind {E A B} (m : Effect E A) (k : A → Effect E B) : Effect E B :=
  λ db, match m db with
        | (Success a, db') => k a db'
        | (Failure e, db') => (Failure e, db')
        end.

Definition mapError {E E' A} (f : E → E') (m : Effect E A) : Effect E' A :=
  λ db, match m db with
        | (Success a, db') => (Success a, db')
        | (Failure e, db') => (Failure (f e), db')
        end.

(** [Effect.catchTag("ConfigurationNotFoundError", ...)] *)
Definition catchNotFound {A} (m : Effect Error A) (h : Effect Error A)
  : Effect Error A :=
  λ db, match m db with
        | (Failure (ConfigurationNotFoundError _), db') => h db'
        | r => r
        end.

(** [Effect.all], sequential. *)
Fixpoint all {E A} (ms : list (Effect E A)) : Effect E (list A) :=
  match ms with
  | [] => succeed []
  | m :: ms' => bind m (λ a, bind (all ms') (λ r, succeed (a :: r)))
  end.

(** Run an effect [n] times in a row, keeping the last state. *)
Fixpoint iterate {E A} (n : nat) (m : Effect E A) (db : Database) : Database :=
  match n with
  | O => db
  | S n' => iterate n' m (snd (m db))
  end.

End Eff.

Declare Scope eff_scope.
Delimit Scope eff_scope with eff.
Notation "'let*' x ':=' m 'in' k" := (Eff.bind m (λ x, k))
  (at level 10, x name, m at level 100, k at level 200,
   only parsing) : eff_scope.
Notation "'do*' m 'in' k" := (Eff.bind m (λ _, k))
  (at level 10, m at level 100, k at level 200, only parsing) : eff_scope.
Local Open Scope eff_scope.

(** ** The SQL statements the program issues ([sql.unsafe]) *)

Module Sql.

(** [SELECT name FROM sqlite_master WHERE type='table' AND name=?] *)
Definition select_master (tableName : string) : Effect SqlError (list string) :=
  λ db, match db !! tableName with
        | Some _ => (Success [tableName], db)
        | None => (Success [], db)
        end.

(** [SELECT COUNT( * ) as count FROM <tableName>] *)
Definition count (tableName : string) : Effect SqlError nat :=
  λ db, match db !! tableName with
        | Some t => (Success (size t), db)
        | None => (Failure (NoSuchTable tableName), db)
        end.

(** [CREATE TABLE IF NOT EXISTS <tableName> (...)] *)
Definition create_table_if_not_exists (tableName : string) : Effect SqlError unit :=
  λ db, match db !! tableName with
        | Some _ => (Success tt, db)
        | None => (Success tt, <[tableName := ∅]> db)
        end.

(** [DROP TABLE IF EXISTS <tableName>]: it has no way to fail in this model,
    so it fits every error type. *)
Definition drop_table_if_exists {E} (tableName : string) : Effect E unit :=
  λ db, (Success tt, delete tableName db).

(** A statement that reads [configuration]. *)
Definition query {A} (f : Table → A) : Effect SqlError A :=
  λ db, match db !! "configuration" with
        | Some t => (Success (f t), db)
        | None => (Failure (NoSuchTable "configuration"), db)
        end.

(** A statement that writes [configuration]. *)
Definition execute (f : Table → Table) : Effect SqlError unit :=
  λ db, match db !! "configuration" with
        | Some t => (Success tt, <["configuration" := f t]> db)
        | None => (Failure (NoSuchTable "configuration"), db)
        end.

End Sql.

(** ** Key-value repository ([ConfigurationRepository.ts]) *)

Definition createConfigurationTable : Effect Error unit :=
  Eff.mapError (DatabaseConnectionError "table creation")
    (Sql.create_table_if_not_exists "configuration").

Definition getConfiguration (key : string) : Effect Error string :=
  Eff.mapError
    (λ e, match e with
          | inl notFound => notFound
          | inr cause => ConfigurationPersistenceError "get" cause
          end)
    (let* rows := Eff.mapError inr (Sql.query (λ t, row_value <$> t !! key)) in
     match rows with
     | None => Eff.fail (inl (ConfigurationNotFoundError key))
     | Some v => Eff.succeed v
     end).

(** [INSERT INTO configuration (key, value) VALUES (?, ?)
     ON CONFLICT(key) DO UPDATE SET value = excluded.value,
                                    updated_at = CURRENT_TIMESTAMP]:
    a fresh row takes the column default [CURRENT_TIMESTAMP], a conflicting
    one is overwritten with the same two values.  [now] is the engine's
    clock. *)
Definition setConfiguration (now : string) (key value : string) : Effect Error unit :=
  Eff.mapError (ConfigurationPersistenceError "set")
    (Sql.execute (λ t, <[key := mkRow value now]> t)).

(** [ORDER BY key] under SQLite's default BINARY collation. *)
Definition key_le (r1 r2 : string * Row) : Prop := String.le r1.1 r2.1.

#[local] Instance key_le_dec r1 r2 : Decision (key_le r1 r2).
Proof. unfold key_le. apply _. Defined.

Definition select_all_ordered (t : Table) : list ConfigurationRecord :=
  (λ kr : string * Row, mkRecord kr.1 (row_value kr.2) (row_updated_at kr.2))
    <$> merge_sort key_le (map_to_list t).

Definition getAllConfiguration : Effect Error (list ConfigurationRecord) :=
  Eff.mapError (ConfigurationPersistenceError "getAll")
    (Sql.query select_all_ordered).

Definition deleteConfiguration (key : string) : Effect Error unit :=
  Eff.mapError (ConfigurationPersistenceError "delete")
    (Sql.execute (delete key)).

Definition hasConfiguration (key : string) : Effect Error bool :=
  Eff.mapError (ConfigurationPersistenceError "has")
    (Sql.query (λ t, bool_decide (is_Some (t !! key)))).

Definition getConfigurationWithDefault (key defaultValue : string)
  : Effect Error string :=
  Eff.catchNotFound (getConfiguration key) (Eff.succeed defaultValue).

Definition initializeConfigurationDatabase : Effect Error unit :=
  createConfigurationTable.


Definition resetToDefaults (now : string) (defaultConfigs : list (string * string))
  : Effect Error unit :=
  do* Eff.all ((λ kv : string * string, setConfiguration now kv.1 kv.2)
                 <$> defaultConfigs) in
  Eff.succeed tt.

(** ** Table lifecycle ([DatabaseInitialization.ts]) *)

Record TableInfo : Type :=
  mkTableInfo { name : string; exists_ : bool; rowCount : nat }.

Definition checkTableStatus (tableName : string) : Effect Error TableInfo :=
  Eff.mapError
    (DatabaseConnectionError ("table status check for " +:+ tableName))
    (let* tableCheck := Sql.select_master tableName in
     let exists_ := bool_decide (0 < length tableCheck)%nat in
     if exists_ then
       let* countResult := Sql.count tableName in
       Eff.succeed (mkTableInfo tableName exists_ countResult)
     else
       Eff.succeed (mkTableInfo tableName exists_ 0%nat)).

Definition tables : list string := ["configuration"].

Definition getDatabaseStatus : Effect Error (list TableInfo) :=
  Eff.all (checkTableStatus <$> tables).

Record InitResult : Type :=
  mkInitResult { created : list string; skipped : list string }.

Definition hasData (s : TableInfo) : bool :=
  exists_ s && bool_decide (0 < rowCount s)%nat.

Definition initializeTablesIfNeeded : Effect Error InitResult :=
  let* statuses := getDatabaseStatus in
  let tablesWithData := filter (λ s, hasData s = true) statuses in
  if bool_decide (0 < length tablesWithData)%nat then
    Eff.succeed (mkInitResult [] (name <$> tablesWithData))
  else
    let missingTables := filter (λ s, exists_ s = false) statuses in
    if bool_decide (length missingTables = 0%nat) then
      Eff.succeed (mkInitResult [] [])
    else
      do* createConfigurationTable in
      Eff.succeed (mkInitResult (name <$> missingTables) []).

Definition forceInitializeAllTables : Effect Error unit :=
  let* statuses := getDatabaseStatus in
  let existingTables := filter (λ s, exists_ s = true) statuses in
  if bool_decide (0 < length existingTables)%nat then
    Eff.fail (JsError
      "Force initialization requires explicit confirmation. Use --force-confirm flag.")
  else
    do* createConfigurationTable in
    Eff.succeed tt.

(** ** [database force-init] ([commands/database.ts]) *)

Definition confirmationRequiredMessage : string :=
  "Force initialization requires --force-confirm flag." +:+ String "010" "" +:+
  "This operation will DELETE ALL existing tables and data." +:+ String "010" "" +:+
  "Use: database force-init --force-confirm".

(** The handler, run against the database file named by [--database]. *)
Definition databaseForceInitCommand (forceConfirm : bool) : Effect Error unit :=
  do* (if negb forceConfirm
       then Eff.fail (JsError confirmationRequiredMessage)
       else Eff.succeed tt) in
  do* Eff.mapError (λ error, JsError (String_of_error error))
        forceInitializeAllTables in
  Eff.succeed tt.

Definition databaseInitCommand : Effect Error unit :=
  let* result := Eff.mapError (λ error, JsError (String_of_error error))
                   initializeTablesIfNeeded in
  Eff.succeed tt.

(** ** The later revision of [DatabaseInitialization.ts]

    The repository also holds a later revision of the same module, with two
    more tables and a force initialization that drops. *)

Module Revised.

(** [createProcessingLogTable] and [createErrorLogTable] of
    [ProcessingLogRepository.ts]; the indexes they add are not tables and
    hold no rows. *)
Definition createProcessingLogTable : Effect Error unit :=
  Eff.mapError (DatabaseConnectionError "creating processing_log table")
    (Sql.create_table_if_not_exists "processing_log").

Definition createErrorLogTable : Effect Error unit :=
  Eff.mapError (DatabaseConnectionError "creating error_log table")
    (Sql.create_table_if_not_exists "error_log").

Definition tables : list string := ["configuration"; "processing_log"; "error_log"].

Definition getDatabaseStatus : Effect Error (list TableInfo) :=
  Eff.all (checkTableStatus <$> tables).

(** [for (const table of existingTables) yield* sql.unsafe(DROP ...)] *)
Fixpoint dropEach (existingTables : list TableInfo) : Effect Error unit :=
  match existingTables with
  | [] => Eff.succeed tt
  | table :: rest =>
      do* Sql.drop_table_if_exists (name table) in
      dropEach rest
  end.

Definition forceInitializeAllTables : Effect Error unit :=
  let* statuses := getDatabaseStatus in
  let existingTables := filter (λ s, exists_ s = true) statuses in
  do* (if bool_decide (0 < length existingTables)%nat
       then dropEach existingTables
       else Eff.succeed tt) in
  do* createConfigurationTable in
  do* createProcessingLogTable in
  do* createErrorLogTable in
  Eff.succeed tt.

End Revised.

(** ** JavaScript values and built-ins the program relies on

    Strings are sequences of 8-bit characters (code units up to U+00FF). *)

(** A number as this program meets it: the result of [parseInt], or an
    integer literal.  Integers are kept exact; beyond 2^53 the engine would
    round them, where every check below fails them anyway. *)
Inductive JsNumber : Type :=
| NaN
| Int (z : Z).

(** A [Date] object: its time value in milliseconds since the epoch, or the
    invalid date whose time value is [NaN]. *)
Inductive JsDate : Type :=
| InvalidDate
| TimeValue (ms : Z).

(** [a > b] and [a < b] on two dates compare their time values; any
    comparison with [NaN] is false. *)
Definition Date_gt (a b : JsDate) : bool :=
  match a, b with
  | TimeValue x, TimeValue y => bool_decide (y < x)
  | _, _ => false
  end.

Definition Date_lt (a b : JsDate) : bool := Date_gt b a.

Module Js.

(** *** Strings *)

(** The rest of [s] after the literal [p], when [s] starts with it. *)
Fixpoint dropPrefix (p s : string) : option string :=
  match p, s with
  | EmptyString, _ => Some s
  | String a p', String b s' => if Ascii.eqb a b then dropPrefix p' s' else None
  | String _ _, EmptyString => None
  end.

Definition startsWith (s searchString : string) : bool :=
  bool_decide (is_Some (dropPrefix searchString s)).

Definition endsWith (s searchString : string) : bool :=
  startsWith (String.rev s) (String.rev searchString).

(** [WhiteSpace] and [LineTerminator] code points below U+0100. *)
Definition isStrWhiteSpaceChar (c : ascii) : bool :=
  let n := N_of_ascii c in
  ((9 <=? n) && (n <=? 13) || (n =? 32) || (n =? 160))%N.

Definition isLineTerminator (c : ascii) : bool :=
  let n := N_of_ascii c in ((n =? 10) || (n =? 13))%N.

Fixpoint trimStart (s : string) : string :=
  match s with
  | String c s' => if isStrWhiteSpaceChar c then trimStart s' else s
  | EmptyString => s
  end.

Definition digitValue (c : ascii) : option Z :=
  let n := N_of_ascii c in
  if ((48 <=? n) && (n <=? 57))%N then Some (Z.of_N n - 48) else None.

(** *** [parseInt(string, 10)] *)

(** The longest prefix of decimal digits, read as an integer; [acc] is the
    value read so far, [None] before the first digit. *)
Fixpoint parseDigits (s : string) (acc : option Z) : option Z :=
  match s with
  | String c s' =>
      match digitValue c with
      | Some d => parseDigits s' (Some (10 * default 0 acc + d))
      | None => acc
      end
  | EmptyString => acc
  end.

Definition parseInt (s : string) : JsNumber :=
  let trimmed := trimStart s in
  let '(sign, digits) :=
    match trimmed with
    | String "-" r => (-1, r)
    | String "+" r => (1, r)
    | _ => (1, trimmed)
    end in
  match parseDigits digits None with
  | None => NaN
  | Some n => Int (sign * n)
  end.

(** *** [Number.prototype.toString()] *)

Definition Number_toString (n : JsNumber) : string :=
  match n with
  | NaN => "NaN"
  | Int z => NilZero.string_of_int (Z.to_int z)
  end.

(** [Number.isSafeInteger] *)
Definition isSafeInteger (n : JsNumber) : bool :=
  match n with
  | NaN => false
  | Int z => bool_decide (- (2 ^ 53 - 1) ≤ z ≤ 2 ^ 53 - 1)
  end.

(** *** The two regular expressions of the schema *)

Fixpoint noLineTerminator (s : string) : bool :=
  match s with
  | String c s' => negb (isLineTerminator c) && noLineTerminator s'
  | EmptyString => true
  end.

(** [:\/\/.+$] matched at the start of [r]: the separator, then one or more
    characters other than line terminators up to the end of the input. *)
Definition matchAuthority (r : string) : bool :=
  match dropPrefix "://" r with
  | Some rest => negb (bool_decide (rest = "")) && noLineTerminator rest
  | None => false
  end.

(** [/^https?:\/\/.+$/.test(s)] *)
Definition test_httpUrl (s : string) : bool :=
  match dropPrefix "http" s with
  | Some r =>
      match dropPrefix "s" r with
      | Some r' => matchAuthority r' || matchAuthority r
      | None => matchAuthority r
      end
  | None => false
  end.

(** [/\.db$/.test(s)] *)
Definition test_dbSuffix (s : string) : bool := endsWith s ".db".

(** *** [node:path], POSIX flavour *)

Fixpoint splitSlash (s : string) (cur : string) : list string :=
  match s with
  | String c s' =>
      if Ascii.eqb c "/" then String.rev cur :: splitSlash s' ""
      else splitSlash s' (String c cur)
  | EmptyString => [String.rev cur]
  end.

(** [normalizeString] without leave above the root: empty and [.] segments
    vanish, [..] removes the segment before it. *)
Definition normalizeSegments (segs : list string) : list string :=
  foldl (λ (stack : list string) (seg : string),
           if bool_decide (seg = "") || bool_decide (seg = ".") then stack
           else if bool_decide (seg = "..") then removelast stack
           else stack ++ [seg])
        [] segs.

Fixpoint joinSlash (segs : list string) : string :=
  match segs with
  | [] => ""
  | [seg] => seg
  | seg :: rest => seg +:+ "/" +:+ joinSlash rest
  end.

(** [path.resolve(p)] in a process whose working directory is the absolute
    path [cwd]. *)
Definition path_resolve (cwd p : string) : string :=
  let full := if startsWith p "/" then p else cwd +:+ "/" +:+ p in
  "/" +:+ joinSlash (normalizeSegments (splitSlash full "")).

(** The loop of [path.dirname]: scan from the last character down to index
    1 for the first slash that follows a non-slash. *)
Fixpoint dirnameScan (cs : list ascii) (i : nat) (matchedSlash : bool) : option nat :=
  match cs with
  | [] => None
  | c :: cs' =>
      if Ascii.eqb c "/" then
        if matchedSlash then dirnameScan cs' (i - 1) matchedSlash else Some i
      else dirnameScan cs' (i - 1) false
  end.

Definition path_dirname (p : string) : string :=
  match p with
  | EmptyString => "."
  | String c0 rest =>
      let hasRoot := Ascii.eqb c0 "/" in
      match dirnameScan (rev (list_ascii_of_string rest)) (String.length rest) true with
      | None => if hasRoot then "/" else "."
      | Some end_ =>
          if hasRoot && bool_decide (end_ = 1%nat) then "//"
          else String.substring 0 end_ p
      end
  end.

(** *** Local midnight *)

Definition msPerDay : Z := 86400000.

(** [d = new Date(now); d.setHours(0, 0, 0, 0)] in a zone [tzOffset]
    milliseconds east of UTC. *)
Definition startOfLocalDay (now tzOffset : Z) : JsDate :=
  TimeValue ((now + tzOffset) `div` msPerDay * msPerDay - tzOffset).

End Js.

(** What a command reads from the process it runs in. *)
Record Env : Type := mkEnv {
  cwd : string;      (* [process.cwd()] *)
  now : Z;           (* the clock, in milliseconds since the epoch *)
  tzOffset : Z       (* local time minus UTC, in milliseconds *)
}.

(** ** Configuration objects ([Configuration.ts]) *)

Record ThetaDataConfig : Type :=
  mkThetaData { baseUrl : string; maxConcurrentRequests : JsNumber }.

Record ProcessingConfig (D : Type) : Type :=
  mkProcessing { startDate : D; outputDirectory : string; tempDirectory : string }.
Arguments mkProcessing {D} _ _ _.
Arguments startDate {D} _.
Arguments outputDirectory {D} _.
Arguments tempDirectory {D} _.

Record DatabaseConfig : Type := mkDatabase { path : string }.

(** The configuration object; [D] is what the start date is held as. *)
Record AppConfigOf (D : Type) : Type :=
  mkAppConfig {
    thetaData : ThetaDataConfig;
    processing : ProcessingConfig D;
    database : DatabaseConfig
  }.
Arguments mkAppConfig {D} _ _ _.
Arguments thetaData {D} _.
Arguments processing {D} _.
Arguments database {D} _.

(** [Schema.Schema.Type<typeof AppConfig>]: the start date is a [Date]. *)
Definition AppConfig : Type := AppConfigOf JsDate.

(** A start date as found in an object at run time: still the string of
    the input format, or already a [Date]. *)
Inductive DateField : Type :=
| DateString (s : string)
| DateObject (d : JsDate).

(** A configuration object in either format, the [unknown] handed to
    [validateConfiguration] and the union [getFullConfiguration] returns. *)
Definition ConfigObject : Type := AppConfigOf DateField.

Definition mapStartDate {D D'} (f : D → D') (c : AppConfigOf D) : AppConfigOf D' :=
  mkAppConfig (thetaData c)
    (mkProcessing (f (startDate (processing c)))
       (outputDirectory (processing c)) (tempDirectory (processing c)))
    (database c).

(** An object in the input format, seen as a run-time object. *)
Definition encoded (c : AppConfigOf string) : ConfigObject := mapStartDate DateString c.

(** A validated configuration, seen as a run-time object. *)
Definition decoded (c : AppConfig) : ConfigObject := mapStartDate DateObject c.

(** ** What the libraries leave to the platform *)

(** A failure of [Schema.decodeUnknown]: where in the value, and what. *)
Inductive ParseIssue : Type :=
| ExpectedType (expected : string)
| RefinementFailure (filter : string).

Record ParseError : Type :=
  mkParseError { errorPath : list string; issue : ParseIssue }.

(** The two object literals [JSON.stringify] is applied to. *)
Inductive Json : Type :=
| JConfig (configObject : ConfigObject)
| JDirectories (outputDirectory tempDirectory : string).

(** Engine and library functions whose results the program passes on but
    whose definition is not the program's: date parsing and printing are
    in part implementation-defined in ECMAScript, and the two formatters
    only produce the text of error values.  The program calls
    [toISOString] on valid dates only. *)
Class Platform : Type := {
  Date_parse : string → JsDate;          (* [new Date(s)] *)
  Date_toString : JsDate → string;       (* [Date.prototype.toString] *)
  Date_toISOString : JsDate → string;    (* [Date.prototype.toISOString] *)
  formatErrorSync : ParseError → string; (* [TreeFormatter.formatErrorSync] *)
  JSON_stringify : Json → string
}.

(** ** Pure results *)

Module Ex.

Definition bind {E A B} (m : Exit E A) (k : A → Exit E B) : Exit E B :=
  match m with
  | Success a => k a
  | Failure e => Failure e
  end.

Definition mapError {E E' A} (f : E → E') (m : Exit E A) : Exit E' A :=
  match m with
  | Success a => Success a
  | Failure e => Failure (f e)
  end.

(** [Effect.asVoid] *)
Definition asVoid {E A} (m : Exit E A) : Exit E unit :=
  match m with
  | Success _ => Success tt
  | Failure e => Failure e
  end.

Definition isFailure {E A} (m : Exit E A) : bool :=
  match m with Failure _ => true | Success _ => false end.

End Ex.

Notation "'let?' x ':=' m 'in' k" := (Ex.bind m (λ x, k))
  (at level 10, x name, m at level 100, k at level 200,
   only parsing) : eff_scope.

(** An effect that does not touch the database. *)
Definition fromExit {E A} (m : Exit E A) : Effect E A := λ db, (m, db).

(** ** Configuration schema and defaults ([Configuration.ts]) *)

(** Default configuration values (input format before validation). *)
Definition DEFAULT_CONFIG : AppConfigOf string :=
  mkAppConfig
    (mkThetaData "http://localhost:25510" (Int 4))
    (mkProcessing "2024-01-01" "./data/parquet" "./data/temp")
    (mkDatabase "./data/spx-pipeline.db").

Module Schema.

Definition refine (ok : bool) (filter : string) {A} (a : A) : Exit ParseError A :=
  if ok then Success a else Failure (mkParseError [] (RefinementFailure filter)).

(** [Schema.String.pipe(Schema.pattern(/^https?:\/\/.+$/))] *)
Definition decodeBaseUrl (s : string) : Exit ParseError string :=
  refine (Js.test_httpUrl s) "pattern(/^https?:\/\/.+$/)" s.

(** [Schema.Number.pipe(Schema.int(), Schema.between(1, 10))] *)
Definition decodeMaxConcurrentRequests (n : JsNumber) : Exit ParseError JsNumber :=
  let? n := refine (Js.isSafeInteger n) "int" n in
  refine (match n with Int z => bool_decide (1 ≤ z ≤ 10) | NaN => false end)
    "between(1, 10)" n.

(** [Schema.DateFromString]: a string is turned into a [Date] with
    [new Date(s)], whatever date comes out; anything else is not a string. *)
Definition decodeStartDate {Pf : Platform} (v : DateField) : Exit ParseError JsDate :=
  match v with
  | DateString s => Success (Date_parse s)
  | DateObject _ => Failure (mkParseError [] (ExpectedType "string"))
  end.

(** [Schema.String.pipe(Schema.minLength(1))] *)
Definition minLength1 (s : string) : Exit ParseError string :=
  refine (bool_decide (1 ≤ String.length s)%nat) "minLength(1)" s.

(** [Schema.String.pipe(Schema.minLength(1), Schema.pattern(/\.db$/))] *)
Definition decodeDatabasePath (s : string) : Exit ParseError string :=
  let? s := minLength1 s in
  refine (Js.test_dbSuffix s) "pattern(/\.db$/)" s.

(** The failure of a property, reported under the property's name. *)
Definition property {A} (name : string) (m : Exit ParseError A) : Exit ParseError A :=
  Ex.mapError (λ e, mkParseError (name :: errorPath e) (issue e)) m.

(** [Schema.Struct]: the properties are decoded in declaration order and
    the first failure is the result. *)
Definition decodeThetaDataConfig (o : ThetaDataConfig) : Exit ParseError ThetaDataConfig :=
  let? u := property "baseUrl" (decodeBaseUrl (baseUrl o)) in
  let? n := property "maxConcurrentRequests"
              (decodeMaxConcurrentRequests (maxConcurrentRequests o)) in
  Success (mkThetaData u n).

Definition decodeProcessingConfig {Pf : Platform} (o : ProcessingConfig DateField)
  : Exit ParseError (ProcessingConfig JsDate) :=
  let? d := property "startDate" (decodeStartDate (startDate o)) in
  let? out := property "outputDirectory" (minLength1 (outputDirectory o)) in
  let? tmp := property "tempDirectory" (minLength1 (tempDirectory o)) in
  Success (mkProcessing d out tmp).

Definition decodeDatabaseConfig (o : DatabaseConfig) : Exit ParseError DatabaseConfig :=
  let? p := property "path" (decodeDatabasePath (path o)) in
  Success (mkDatabase p).

Definition decodeAppConfig {Pf : Platform} (o : ConfigObject) : Exit ParseError AppConfig :=
  let? t := property "thetaData" (decodeThetaDataConfig (thetaData o)) in
  let? p := property "processing" (decodeProcessingConfig (processing o)) in
  let? d := property "database" (decodeDatabaseConfig (database o)) in
  Success (mkAppConfig t p d).

End Schema.

Definition validateConfiguration {Pf : Platform} (config : ConfigObject)
  : Exit ParseError AppConfig :=
  Schema.decodeAppConfig config.

Definition validateThetaDataUrl (url : string) : Exit ParseError string :=
  Schema.decodeBaseUrl url.

Definition validateDate {Pf : Platform} (date : DateField) : Exit ParseError JsDate :=
  Schema.decodeStartDate date.

Definition validateDirectoryPath (path : string) : Exit ParseError string :=
  Schema.minLength1 path.

Definition validateDatabasePath (path : string) : Exit ParseError string :=
  Schema.decodeDatabasePath path.

(** [fromSchemaError] of [ConfigurationError.ts] *)
Definition fromSchemaError {Pf : Platform} (key value : string) (schemaError : ParseError)
  : Error :=
  let reason := formatErrorSync schemaError in
  ConfigurationValidationError key value reason.

(** ** Configuration service ([ConfigurationService.ts]) *)

Module ConfigKeys.
Definition THETADATA_BASE_URL : string := "thetadata.baseUrl".
Definition THETADATA_MAX_CONCURRENT_REQUESTS : string := "thetadata.maxConcurrentRequests".
Definition PROCESSING_START_DATE : string := "processing.startDate".
Definition PROCESSING_OUTPUT_DIRECTORY : string := "processing.outputDirectory".
Definition PROCESSING_TEMP_DIRECTORY : string := "processing.tempDirectory".
Definition DATABASE_PATH : string := "database.path".

(** [Object.values(ConfigKeys)] *)
Definition values : list string :=
  [ THETADATA_BASE_URL; THETADATA_MAX_CONCURRENT_REQUESTS; PROCESSING_START_DATE;
    PROCESSING_OUTPUT_DIRECTORY; PROCESSING_TEMP_DIRECTORY; DATABASE_PATH ].
End ConfigKeys.

(** Validation mapping for configuration keys: the [switch] over the key. *)
Definition validateByKey {Pf : Platform} (key value : string) : Exit Error unit :=
  if bool_decide (key = ConfigKeys.THETADATA_BASE_URL) then
    Ex.mapError (λ error, fromSchemaError key value error)
      (Ex.asVoid (validateThetaDataUrl value))
  else if bool_decide (key = ConfigKeys.PROCESSING_START_DATE) then
    Ex.mapError (λ error, fromSchemaError key value error)
      (Ex.asVoid (validateDate (DateString value)))
  else if bool_decide (key = ConfigKeys.PROCESSING_OUTPUT_DIRECTORY)
          || bool_decide (key = ConfigKeys.PROCESSING_TEMP_DIRECTORY) then
    Ex.mapError (λ error, fromSchemaError key value error)
      (Ex.asVoid (validateDirectoryPath value))
  else if bool_decide (key = ConfigKeys.DATABASE_PATH) then
    Ex.mapError (λ error, fromSchemaError key value error)
      (Ex.asVoid (validateDatabasePath value))
  else if bool_decide (key = ConfigKeys.THETADATA_MAX_CONCURRENT_REQUESTS) then
    let numValue := Js.parseInt value in
    match numValue with
    | NaN =>
        Failure (ConfigurationValidationError key value
                   "Must be a number between 1 and 10")
    | Int z =>
        if bool_decide (z < 1) || bool_decide (z > 10) then
          Failure (ConfigurationValidationError key value
                     "Must be a number between 1 and 10")
        else Success tt
    end
  else
    Failure (ConfigurationValidationError key value "Unknown configuration key").

(** [startDate.toString()], on a string and on a [Date]. *)
Definition DateField_toString {Pf : Platform} (v : DateField) : string :=
  match v with
  | DateString s => s
  | DateObject d => Date_toString d
  end.

(** Serialize configuration to flat key-value structure: the entries of
    the object literal, in the order they are written. *)
Definition serializeConfig {Pf : Platform} (config : ConfigObject) : list (string * string) :=
  [ (ConfigKeys.THETADATA_BASE_URL, baseUrl (thetaData config));
    (ConfigKeys.THETADATA_MAX_CONCURRENT_REQUESTS,
       Js.Number_toString (maxConcurrentRequests (thetaData config)));
    (ConfigKeys.PROCESSING_START_DATE,
       DateField_toString (startDate (processing config)));
    (ConfigKeys.PROCESSING_OUTPUT_DIRECTORY, outputDirectory (processing config));
    (ConfigKeys.PROCESSING_TEMP_DIRECTORY, tempDirectory (processing config));
    (ConfigKeys.DATABASE_PATH, path (database config)) ].

(** [o[k] = v] on a plain object with string values: assigning a string to
    [__proto__] goes to the inherited setter, which ignores it. *)
Definition Record_set (k v : string) (o : gmap string string) : gmap string string :=
  if bool_decide (k = "__proto__") then o else <[k := v]> o.

(** The plain object with the given entries, assigned in order. *)
Definition Record_fromEntries (entries : list (string * string)) : gmap string string :=
  foldl (λ acc kv, Record_set kv.1 kv.2 acc) ∅ entries.

(** [o[k] || fallback]: a missing key and an empty string are both falsy. *)
Definition getOr (o : gmap string string) (k fallback : string) : string :=
  match o !! k with
  | Some v => if bool_decide (v = "") then fallback else v
  | None => fallback
  end.

(** The object [deserializeConfig] builds before validating it. *)
Definition configObjectOf (configData : gmap string string) : AppConfigOf string :=
  mkAppConfig
    (mkThetaData
       (getOr configData ConfigKeys.THETADATA_BASE_URL
          (baseUrl (thetaData DEFAULT_CONFIG)))
       (Js.parseInt
          (getOr configData ConfigKeys.THETADATA_MAX_CONCURRENT_REQUESTS
             (Js.Number_toString (maxConcurrentRequests (thetaData DEFAULT_CONFIG))))))
    (mkProcessing
       (getOr configData ConfigKeys.PROCESSING_START_DATE
          (startDate (processing DEFAULT_CONFIG)))
       (getOr configData ConfigKeys.PROCESSING_OUTPUT_DIRECTORY
          (outputDirectory (processing DEFAULT_CONFIG)))
       (getOr configData ConfigKeys.PROCESSING_TEMP_DIRECTORY
          (tempDirectory (processing DEFAULT_CONFIG))))
    (mkDatabase
       (getOr configData ConfigKeys.DATABASE_PATH (path (database DEFAULT_CONFIG)))).

(** Deserialize flat key-value structure to configuration object. *)
Definition deserializeConfig {Pf : Platform} (configData : gmap string string)
  : Exit Error AppConfig :=
  let configObject := encoded (configObjectOf configData) in
  Ex.mapError
    (λ error, fromSchemaError "config" (JSON_stringify (JConfig configObject)) error)
    (validateConfiguration configObject).

(** The [reduce] that turns the records into a plain object. *)
Definition configDataOf (configRecords : list ConfigurationRecord) : gmap string string :=
  foldl (λ acc record, Record_set (key record) (value record) acc) ∅ configRecords.

Definition getFullConfiguration {Pf : Platform} : Effect Error ConfigObject :=
  let* configRecords := getAllConfiguration in
  let configData := configDataOf configRecords in
  if bool_decide (size configData = 0%nat) then
    Eff.succeed (encoded DEFAULT_CONFIG)
  else
    let* config := fromExit (deserializeConfig configData) in
    Eff.succeed (decoded config).

Definition setConfigurationValue {Pf : Platform} (now : string) (key value : string)
  : Effect Error unit :=
  do* fromExit (validateByKey key value) in
  setConfiguration now key value.

Definition getConfigurationValue (key : string) : Effect Error string :=
  getConfiguration key.

Definition resetConfiguration {Pf : Platform} (now : string) : Effect Error unit :=
  let defaultFlat := serializeConfig (encoded DEFAULT_CONFIG) in
  resetToDefaults now defaultFlat.

Definition validateFullConfiguration {Pf : Platform} : Effect Error AppConfig :=
  let* configRecords := getAllConfiguration in
  let configData := configDataOf configRecords in
  let* config := fromExit (deserializeConfig configData) in
  fromExit
    (Ex.mapError
       (λ error, fromSchemaError "fullConfig" (JSON_stringify (JConfig (decoded config)))
                   error)
       (validateConfiguration (decoded config))).

(** ** Cross-field rules ([ConfigurationValidation.ts]) *)

(** [s.split('T')[0]] *)
Fixpoint beforeT (s : string) : string :=
  match s with
  | String c s' => if Ascii.eqb c "T" then "" else String c (beforeT s')
  | EmptyString => ""
  end.

Definition validateCrossFieldRules {Pf : Platform} (env : Env) (config : AppConfig)
  : Exit Error AppConfig :=
  (* Ensure output and temp directories are different *)
  let outputAbsolute := Js.path_resolve (cwd env) (outputDirectory (processing config)) in
  let tempAbsolute := Js.path_resolve (cwd env) (tempDirectory (processing config)) in
  if bool_decide (outputAbsolute = tempAbsolute) then
    Failure (ConfigurationValidationError "processing"
               (JSON_stringify (JDirectories outputAbsolute tempAbsolute))
               "Output directory and temp directory must be different")
  else
  (* Ensure database is not in temp directory *)
  let dbAbsolute := Js.path_resolve (cwd env) (path (database config)) in
  let dbDir := Js.path_dirname dbAbsolute in
  if Js.startsWith dbDir tempAbsolute then
    Failure (ConfigurationValidationError "database.path"
               (path (database config))
               "Database should not be stored in temporary directory")
  else
  (* Validate start date is not in the future *)
  let startDate := startDate (processing config) in
  let today := Js.startOfLocalDay (now env) (tzOffset env) in
  if Date_gt startDate today then
    Failure (ConfigurationValidationError "processing.startDate"
               (beforeT (Date_toISOString startDate))
               "Start date cannot be in the future")
  else
  (* Validate start date is not too far in the past (e.g., before 2020) *)
  let minDate := Date_parse "2020-01-01" in
  if Date_lt startDate minDate then
    Failure (ConfigurationValidationError "processing.startDate"
               (beforeT (Date_toISOString startDate))
               "Start date cannot be before 2020-01-01")
  else
    Success config.

(** ** A reference platform

    A concrete [Platform] for evaluating the program on sample inputs: an
    engine in the UTC time zone that reads the date formats ECMAScript
    fixes (the ISO formats and the output of [toString]) and answers
    [Invalid Date] to everything else. *)

Module Reference.

(** Days since the epoch of a proleptic Gregorian date, and back. *)
Definition daysFromCivil (y m d : Z) : Z :=
  let y' := if m <=? 2 then y - 1 else y in
  let era := y' `div` 400 in
  let yoe := y' - era * 400 in
  let mp := (m + 9) `mod` 12 in
  let doy := (153 * mp + 2) `div` 5 + d - 1 in
  let doe := yoe * 365 + yoe `div` 4 - yoe `div` 100 + doy in
  era * 146097 + doe - 719468.

Definition civilFromDays (z : Z) : Z * Z * Z :=
  let z := z + 719468 in
  let era := z `div` 146097 in
  let doe := z - era * 146097 in
  let yoe := (doe - doe `div` 1460 + doe `div` 36524 - doe `div` 146096) `div` 365 in
  let doy := doe - (365 * yoe + yoe `div` 4 - yoe `div` 100) in
  let mp := (5 * doy + 2) `div` 153 in
  let d := doy - (153 * mp + 2) `div` 5 + 1 in
  let m := if mp <? 10 then mp + 3 else mp - 9 in
  let y := yoe + era * 400 in
  (if m <=? 2 then y + 1 else y, m, d).

Definition daysInMonth (y m : Z) : Z :=
  daysFromCivil (if m =? 12 then y + 1 else y) (if m =? 12 then 1 else m + 1) 1
  - daysFromCivil y m 1.

(** [MakeDate(MakeDay(y, m, d), MakeTime(h, mi, s, ms))] for fields in range. *)
Definition makeDate (y m d h mi s ms : Z) : JsDate :=
  if bool_decide (1 ≤ m ≤ 12) && bool_decide (1 ≤ d ≤ daysInMonth y m)
     && bool_decide (0 ≤ h ≤ 23) && bool_decide (0 ≤ mi ≤ 59)
     && bool_decide (0 ≤ s ≤ 59) && bool_decide (0 ≤ ms ≤ 999)
  then TimeValue (daysFromCivil y m d * Js.msPerDay
                  + h * 3600000 + mi * 60000 + s * 1000 + ms)
  else InvalidDate.

(** Decimal digits, fixed width. *)
Fixpoint digitsOf (width : nat) (n : Z) (acc : string) : string :=
  match width with
  | O => acc
  | S w => digitsOf w (n `div` 10)
             (String (ascii_of_N (Z.to_N (48 + n `mod` 10))) acc)
  end.

Definition pad (width : nat) (n : Z) : string := digitsOf width n "".

(** The number written by exactly the characters of [s], all digits. *)
Definition readNumber (s : string) : option Z :=
  match s with
  | EmptyString => None
  | _ => foldl (λ acc c, a ← acc; d ← Js.digitValue c; Some (10 * a + d))
           (Some 0) (list_ascii_of_string s)
  end.

Definition dayNames : list string := ["Sun"; "Mon"; "Tue"; "Wed"; "Thu"; "Fri"; "Sat"].

Definition monthNames : list string :=
  ["Jan"; "Feb"; "Mar"; "Apr"; "May"; "Jun"; "Jul"; "Aug"; "Sep"; "Oct"; "Nov"; "Dec"].

Fixpoint indexOf (x : string) (l : list string) (i : Z) : option Z :=
  match l with
  | [] => None
  | y :: l' => if bool_decide (x = y) then Some i else indexOf x l' (i + 1)
  end.

Definition zoneSuffix : string := " GMT+0000 (Coordinated Universal Time)".

(** [Date.prototype.toString] for years 0 to 9999. *)
Definition toString (d : JsDate) : string :=
  match d with
  | InvalidDate => "Invalid Date"
  | TimeValue t =>
      let day := t `div` Js.msPerDay in
      let inDay := t `mod` Js.msPerDay in
      let '(y, m, dd) := civilFromDays day in
      default "" (dayNames !! Z.to_nat ((day + 4) `mod` 7)) +:+ " " +:+
      default "" (monthNames !! Z.to_nat (m - 1)) +:+ " " +:+
      pad 2 dd +:+ " " +:+ pad 4 y +:+ " " +:+
      pad 2 (inDay `div` 3600000) +:+ ":" +:+
      pad 2 ((inDay `div` 60000) `mod` 60) +:+ ":" +:+
      pad 2 ((inDay `div` 1000) `mod` 60) +:+ zoneSuffix
  end.

(** [Date.prototype.toISOString] for years 0 to 9999. *)
Definition toISOString (d : JsDate) : string :=
  match d with
  | InvalidDate => ""
  | TimeValue t =>
      let day := t `div` Js.msPerDay in
      let inDay := t `mod` Js.msPerDay in
      let '(y, m, dd) := civilFromDays day in
      pad 4 y +:+ "-" +:+ pad 2 m +:+ "-" +:+ pad 2 dd +:+ "T" +:+
      pad 2 (inDay `div` 3600000) +:+ ":" +:+
      pad 2 ((inDay `div` 60000) `mod` 60) +:+ ":" +:+
      pad 2 ((inDay `div` 1000) `mod` 60) +:+ "." +:+
      pad 3 (inDay `mod` 1000) +:+ "Z"
  end.

Definition sub (start len : nat) (s : string) : string := String.substring start len s.

(** [YYYY-MM-DD] *)
Definition parseIsoDate (s : string) : option JsDate :=
  if bool_decide (String.length s = 10%nat)
     && bool_decide (sub 4 1 s = "-") && bool_decide (sub 7 1 s = "-") then
    y ← readNumber (sub 0 4 s); m ← readNumber (sub 5 2 s);
    d ← readNumber (sub 8 2 s);
    Some (makeDate y m d 0 0 0 0)
  else None.

(** [YYYY-MM-DDTHH:mm:ss.sssZ] *)
Definition parseIsoDateTime (s : string) : option JsDate :=
  if bool_decide (String.length s = 24%nat)
     && bool_decide (sub 4 1 s = "-") && bool_decide (sub 7 1 s = "-")
     && bool_decide (sub 10 1 s = "T") && bool_decide (sub 13 1 s = ":")
     && bool_decide (sub 16 1 s = ":") && bool_decide (sub 19 1 s = ".")
     && bool_decide (sub 23 1 s = "Z") then
    y ← readNumber (sub 0 4 s); m ← readNumber (sub 5 2 s);
    d ← readNumber (sub 8 2 s); h ← readNumber (sub 11 2 s);
    mi ← readNumber (sub 14 2 s); sec ← readNumber (sub 17 2 s);
    ms ← readNumber (sub 20 3 s);
    Some (makeDate y m d h mi sec ms)
  else None.

(** [Www Mmm DD YYYY HH:mm:ss GMT+0000 (...)], the output of [toString]. *)
Definition parseToString (s : string) : option JsDate :=
  if bool_decide (sub 3 1 s = " ") && bool_decide (sub 7 1 s = " ")
     && bool_decide (sub 10 1 s = " ") && bool_decide (sub 15 1 s = " ")
     && bool_decide (sub 18 1 s = ":") && bool_decide (sub 21 1 s = ":")
     && bool_decide (sub 24 9 s = " GMT+0000") then
    _ ← indexOf (sub 0 3 s) dayNames 0;
    m ← indexOf (sub 4 3 s) monthNames 1;
    d ← readNumber (sub 8 2 s); y ← readNumber (sub 11 4 s);
    h ← readNumber (sub 16 2 s); mi ← readNumber (sub 19 2 s);
    sec ← readNumber (sub 22 2 s);
    Some (makeDate y m d h mi sec 0)
  else None.

Definition parse (s : string) : JsDate :=
  default InvalidDate
    (parseIsoDate s ∪ parseIsoDateTime s ∪ parseToString s).

Definition quote : string := String (ascii_of_nat 34) "".

(** A one-line rendering of a parse error. *)
Definition formatError (e : ParseError) : string :=
  foldr (λ p acc, "[" +:+ quote +:+ p +:+ quote +:+ "]" +:+ acc) "" (errorPath e)
  +:+ ": " +:+
  match issue e with
  | ExpectedType t => "Expected " +:+ t
  | RefinementFailure f => "Predicate refinement failure: " +:+ f
  end.

Definition jsonString (s : string) : string := quote +:+ s +:+ quote.

Definition jsonField (k v : string) : string := jsonString k +:+ ":" +:+ v.

(** [JSON.stringify] on strings that need no escape. *)
Definition stringify (j : Json) : string :=
  match j with
  | JConfig c =>
      "{" +:+ jsonField "thetaData"
        ("{" +:+ jsonField "baseUrl" (jsonString (baseUrl (thetaData c))) +:+ "," +:+
         jsonField "maxConcurrentRequests"
           (match maxConcurrentRequests (thetaData c) with
            | NaN => "null"
            | n => Js.Number_toString n
            end) +:+ "}") +:+ "," +:+
      jsonField "processing"
        ("{" +:+ jsonField "startDate"
           (jsonString (match startDate (processing c) with
                        | DateString s => s
                        | DateObject d => toISOString d
                        end)) +:+ "," +:+
         jsonField "outputDirectory" (jsonString (outputDirectory (processing c)))
         +:+ "," +:+
         jsonField "tempDirectory" (jsonString (tempDirectory (processing c)))
         +:+ "}") +:+ "," +:+
      jsonField "database"
        ("{" +:+ jsonField "path" (jsonString (path (database c))) +:+ "}") +:+ "}"
  | JDirectories out tmp =>
      "{" +:+ jsonField "outputDirectory" (jsonString out) +:+ "," +:+
      jsonField "tempDirectory" (jsonString tmp) +:+ "}"
  end.

Definition platform : Platform :=
  {| Date_parse := parse;
     Date_toString := toString;
     Date_toISOString := toISOString;
     formatErrorSync := formatError;
     JSON_stringify := stringify |}.

End Reference.

(** ** Specification vocabulary for the table lifecycle *)

(** The snapshot [checkTableStatus] computes for a table name. *)
Definition statusOf (db : Database) (n : string) : TableInfo :=
  match db !! n with
  | Some t => mkTableInfo n true (size t)
  | None => mkTableInfo n false 0%nat
  end.

(** Known tables that exist and hold at least one row. *)
Definition populated (db : Database) (n : string) : Prop :=
  ∃ t, db !! n = Some t ∧ (0 < size t)%nat.

#[local] Instance populated_dec db n : Decision (populated db n).
Proof.
  unfold populated. destruct (db !! n) as [t|].
  - destruct (decide (0 < size t)%nat) as [H|H].
    + left. eauto.
    + right. intros (t' & [= <-] & ?). contradiction.
  - right. intros (t' & [=] & _).
Defined.

(** The configuration key read back from a database, if the table and the
    row are there. *)
Definition storedRow (db : Database) (k : string) : option Row :=
  db !! "configuration" ≫= λ t : gmap string Row, t !! k.

(** ** Sample databases *)

(** A database file that has just been created. *)
Definition freshDb : Database := ∅.

(** [configuration] exists and holds one row. *)
Definition populatedDb : Database :=
  {[ "configuration" :=
       {[ "delete.me" := mkRow "will-be-lost" "2024-01-01 00:00:00" ]} ]}.

(** [configuration] exists and is empty. *)
Definition emptyConfigDb : Database := {[ "configuration" := ∅ ]}.

(** A reading of the SQL engine's clock. *)
Definition sampleNow : string := "2024-06-01 12:00:00".

(** ** Specification vocabulary for the configuration service *)

(** The default configuration with another database path, in the input
    format of [DEFAULT_CONFIG]. *)
Definition defaultWithPath (p : string) : AppConfigOf string :=
  mkAppConfig (thetaData DEFAULT_CONFIG) (processing DEFAULT_CONFIG) (mkDatabase p).

(** The field rules in the words of the specification: the URL scheme is
    http or https, the value is an integer from 1 to 10, the string is not
    empty, the date parses, the path ends in [.db]. *)
Definition ruleUrlScheme (v : string) : Prop :=
  Js.startsWith v "http://" = true ∨ Js.startsWith v "https://" = true.

Definition ruleIntegerRange (v : string) : Prop :=
  ∃ z : Z, 1 ≤ z ≤ 10 ∧ v = Js.Number_toString (Int z).

Definition ruleNonEmpty (v : string) : Prop := v ≠ "".

Definition ruleParseableDate {Pf : Platform} (v : string) : Prop :=
  Date_parse v ≠ InvalidDate.

Definition ruleDbSuffix (v : string) : Prop := Js.endsWith v ".db" = true.

(** What [validateByKey] tests for the request limit: the integer that
    [parseInt] reads from the front of the value. *)
Definition parsedOutOfRange (v : string) : Prop :=
  match Js.parseInt v with
  | NaN => True
  | Int z => z < 1 ∨ 10 < z
  end.



(** [configuration] holds one row: a database path without the suffix. *)
Definition textPathDb : Database :=
  {[ "configuration" := {[ "database.path" := mkRow "./database.txt" sampleNow ]} ]}.

(** A decoded configuration that satisfies the schema of [AppConfig]. *)
Definition validAppConfig (c : AppConfig) : Prop :=
  Js.test_httpUrl (baseUrl (thetaData c)) = true
  ∧ (∃ z, maxConcurrentRequests (thetaData c) = Int z ∧ 1 ≤ z ≤ 10)
  ∧ (1 ≤ String.length (outputDirectory (processing c)))%nat
  ∧ (1 ≤ String.length (tempDirectory (processing c)))%nat
  ∧ (1 ≤ String.length (path (database c)))%nat
  ∧ Js.test_dbSuffix (path (database c)) = true.

(** Serialize, then deserialize what was written. *)
Definition roundTrip {Pf : Platform} (c : AppConfig) : Exit Error AppConfig :=
  deserializeConfig (Record_fromEntries (serializeConfig (decoded c))).

(** The default configuration after validation, with the start date the
    reference platform reads from ["2024-01-01"]. *)
Definition defaultDecoded : AppConfig :=
  mkAppConfig (thetaData DEFAULT_CONFIG)
    (mkProcessing (TimeValue 1704067200000) "./data/parquet" "./data/temp")
    (database DEFAULT_CONFIG).

(** The same with half a second added to the start date, as validation
    makes it from ["2024-01-01T00:00:00.500Z"]. *)
Definition halfSecondLater : AppConfig :=
  mkAppConfig (thetaData DEFAULT_CONFIG)
    (mkProcessing (TimeValue 1704067200500) "./data/parquet" "./data/temp")
    (database DEFAULT_CONFIG).

(** ** Specification vocabulary for the cross-field rules *)

Section CrossFieldVocabulary.

Context {Pf : Platform} (env : Env) (config : AppConfig).

Definition outputAbsolute : string :=
  Js.path_resolve (cwd env) (outputDirectory (processing config)).

Definition tempAbsolute : string :=
  Js.path_resolve (cwd env) (tempDirectory (processing config)).

Definition dbDir : string :=
  Js.path_dirname (Js.path_resolve (cwd env) (path (database config))).







End CrossFieldVocabulary.

(** A process in [/home/user/project] at noon UTC on 2026-11-02, in the
    UTC zone. *)
Definition sampleEnv : Env := mkEnv "/home/user/project" 1793620800000 0.



(** ** Business days ([ConfigurationValidation.ts]) *)

(** [date.getDay()]: the day of the week of the local time, Sunday being 0;
    [NaN] for the invalid date. *)
Definition Date_getDay (tzOffset : Z) (date : JsDate) : JsNumber :=
  match date with
  | InvalidDate => NaN
  | TimeValue t => Int (((t + tzOffset) `div` Js.msPerDay + 4) `mod` 7)
  end.

(** [day !== n] for an integer literal [n]. *)
Definition Number_strictNe (day : JsNumber) (n : Z) : bool :=
  match day with
  | NaN => true
  | Int z => negb (bool_decide (z = n))
  end.

Definition isBusinessDay (env : Env) (date : JsDate) : bool :=
  let day := Date_getDay (tzOffset env) date in
  Number_strictNe day 0 && Number_strictNe day 6.

Definition validateBusinessDay {Pf : Platform} (env : Env) (dateStr : string)
  : Exit Error JsDate :=
  let date := Date_parse dateStr in
  match date with
  | InvalidDate =>
      Failure (ConfigurationValidationError "processing.startDate" dateStr
                 "Invalid date format")
  | TimeValue _ =>
      if negb (isBusinessDay env date) then
        Failure (ConfigurationValidationError "processing.startDate" dateStr
                   "Start date must be a business day (Monday-Friday)")
      else Success date
  end.

(** ** The [config] commands ([commands/config.ts])

    A command handler is run against the database file named by
    [--database]; what it writes with [console.log] is part of its run. *)

(** An exception thrown by the engine inside a handler: it ends the run as
    a defect, not as a failure of the error channel. *)
Inductive Defect : Type :=
| TypeError
| RangeError.

Inductive Ending : Type :=
| Completed
| Failed (error : Error)
| Died (defect : Defect).

Record CommandRun : Type :=
  mkRun { ending : Ending; output : list string; finalDb : Database }.

(** [array.join(separator)] *)
Fixpoint join (separator : string) (parts : list string) : string :=
  match parts with
  | [] => ""
  | [part] => part
  | part :: rest => part +:+ separator +:+ join separator rest
  end.

Definition newline : string := String "010" "".

Definition formatKeyValue (key value : string) : string := key +:+ " = " +:+ value.

(** Helper to convert [DEFAULT_CONFIG] to [AppConfig] format. *)
Definition defaultConfigToAppConfig {Pf : Platform} : AppConfig :=
  mkAppConfig (thetaData DEFAULT_CONFIG)
    (mkProcessing (Date_parse (startDate (processing DEFAULT_CONFIG)))
       (outputDirectory (processing DEFAULT_CONFIG))
       (tempDirectory (processing DEFAULT_CONFIG)))
    (database DEFAULT_CONFIG).

(** [config.processing.startDate.toISOString().split('T')[0]] on what the
    object holds at run time: a string has no [toISOString], and the
    invalid date makes [toISOString] throw. *)
Definition isoDatePart {Pf : Platform} (v : DateField) : Defect + string :=
  match v with
  | DateString _ => inl TypeError
  | DateObject InvalidDate => inl RangeError
  | DateObject (TimeValue t) => inr (beforeT (Date_toISOString (TimeValue t)))
  end.

Definition formatFullConfiguration {Pf : Platform} (config : ConfigObject)
  : Defect + string :=
  match isoDatePart (startDate (processing config)) with
  | inl defect => inl defect
  | inr date =>
      inr (join newline
             [ "Current Configuration:";
               "";
               "[ThetaData]";
               "  baseUrl = " +:+ baseUrl (thetaData config);
               "  maxConcurrentRequests = "
                 +:+ Js.Number_toString (maxConcurrentRequests (thetaData config));
               "";
               "[Processing]";
               "  startDate = " +:+ date;
               "  outputDirectory = " +:+ outputDirectory (processing config);
               "  tempDirectory = " +:+ tempDirectory (processing config);
               "";
               "[Database]";
               "  path = " +:+ path (database config);
               "" ])
  end.

(** The message of the key check shared by [config set] and [config get]. *)
Definition invalidKeyMessage (key : string) : string :=
  "Invalid configuration key: " +:+ key +:+ newline +:+
  "Valid keys: " +:+ join ", " ConfigKeys.values.

(** [validKeys.includes(key)] *)
Definition includes (validKeys : list string) (key : string) : bool :=
  bool_decide (key ∈ validKeys).

(** [Effect.mapError((error) => new Error(String(error)))] *)
Definition asJsError {A} (m : Effect Error A) : Effect Error A :=
  Eff.mapError (λ error, JsError (String_of_error error)) m.

Definition configSetCommand {Pf : Platform} (now key value : string)
  : Database → CommandRun :=
  λ db,
    let validKeys := ConfigKeys.values in
    if negb (includes validKeys key) then
      mkRun (Failed (JsError (invalidKeyMessage key))) [] db
    else
      match asJsError (setConfigurationValue now key value) db with
      | (Failure error, db') => mkRun (Failed error) [] db'
      | (Success _, db') =>
          mkRun Completed ["✓ Set " +:+ key +:+ " = " +:+ value] db'
      end.

Definition configGetCommand {Pf : Platform} (key : option string)
  : Database → CommandRun :=
  λ db,
    match key with
    | Some keyValue =>
        let validKeys := ConfigKeys.values in
        if negb (includes validKeys keyValue) then
          mkRun (Failed (JsError (invalidKeyMessage keyValue))) [] db
        else
          match asJsError (getConfigurationValue keyValue) db with
          | (Failure error, db') => mkRun (Failed error) [] db'
          | (Success value, db') =>
              mkRun Completed [formatKeyValue keyValue value] db'
          end
    | None =>
        match asJsError getFullConfiguration db with
        | (Failure error, db') => mkRun (Failed error) [] db'
        | (Success config, db') =>
            match formatFullConfiguration config with
            | inl defect => mkRun (Died defect) [] db'
            | inr text => mkRun Completed [text] db'
            end
        end
    end.

Record ValidationOptions : Type :=
  mkOptions {
    checkConnectivity : bool;
    autoCreateDirectories : bool;
    validateBusinessDays : bool
  }.

(** [config validate].  The enhanced validation works on the file system
    and the network; the handler is given it as [comprehensive], which
    returns what it logged and how it ended. *)
Definition configValidateCommand {Pf : Platform}
    (comprehensive : AppConfig → ValidationOptions
                     → list string * (Defect + Exit Error AppConfig))
    (strict autoCreateDirs : bool) : Database → CommandRun :=
  λ db,
    match asJsError validateFullConfiguration db with
    | (Failure error, db') => mkRun (Failed error) [] db'
    | (Success config, db') =>
        let basic := ["✓ Basic configuration is valid"] in
        let show (logged : list string) :=
          match formatFullConfiguration (decoded config) with
          | inl defect => mkRun (Died defect) logged db'
          | inr text => mkRun Completed (logged ++ [text]) db'
          end in
        if strict || autoCreateDirs then
          let '(logged, result) :=
            comprehensive config (mkOptions strict autoCreateDirs strict) in
          let enhanced := basic ++ [newline +:+ "Performing enhanced validation..."]
                          ++ logged in
          match result with
          | inl defect => mkRun (Died defect) enhanced db'
          | inr (Failure error) =>
              mkRun (Failed (JsError (String_of_error error))) enhanced db'
          | inr (Success _) => show (enhanced ++ ["✓ Enhanced validation passed"])
          end
        else show basic
    end.

Definition configResetCommand {Pf : Platform} (now : string)
  : Database → CommandRun :=
  λ db,
    match asJsError (resetConfiguration now) db with
    | (Failure error, db') => mkRun (Failed error) [] db'
    | (Success _, db') =>
        let done := ["✓ Configuration reset to defaults"] in
        match formatFullConfiguration (decoded defaultConfigToAppConfig) with
        | inl defect => mkRun (Died defect) done db'
        | inr text => mkRun Completed (done ++ [text]) db'
        end
    end.


(** ** [database status] ([commands/database.ts]) *)

Definition statusLine (status : TableInfo) : string :=
  let icon := if exists_ status then "✓" else "✗" in
  let rows := if exists_ status
              then " (" +:+ Js.Number_toString (Int (Z.of_nat (rowCount status)))
                   +:+ " rows)"
              else "" in
  "  " +:+ icon +:+ " " +:+ name status +:+ rows.

Definition databaseStatusCommand (database : string) : Database → CommandRun :=
  λ db,
    let header := ["📊 Database Status: " +:+ database +:+ newline] in
    match asJsError getDatabaseStatus db with
    | (Failure error, db') => mkRun (Failed error) header db'
    | (Success statuses, db') =>
        let totalTables := length statuses in
        let existingTables := length (filter (λ s, exists_ s = true) statuses) in
        let totalRows := foldl (λ sum s, sum + rowCount s)%nat 0%nat statuses in
        mkRun Completed
          (header ++ ["Tables:"] ++ (statusLine <$> statuses)
           ++ [newline +:+ "Summary: "
               +:+ Js.Number_toString (Int (Z.of_nat existingTables)) +:+ "/"
               +:+ Js.Number_toString (Int (Z.of_nat totalTables))
               +:+ " tables exist, "
               +:+ Js.Number_toString (Int (Z.of_nat totalRows)) +:+ " total rows"])
          db'
    end.

(** ** Specification vocabulary for reading the configuration back *)

(** The text stored under [k], or [fallback] when there is no such row or
    the text is empty. *)
Definition storedOr (db : Database) (k fallback : string) : string :=
  match storedRow db k with
  | Some r => if bool_decide (row_value r = "") then fallback else row_value r
  | None => fallback
  end.

(** The stored values laid over the defaults, field by field, with the
    number and the date parsed. *)
Definition storedOverDefaults {Pf : Platform} (db : Database) : AppConfig :=
  mkAppConfig
    (mkThetaData
       (storedOr db "thetadata.baseUrl" "http://localhost:25510")
       (Js.parseInt (storedOr db "thetadata.maxConcurrentRequests" "4")))
    (mkProcessing
       (Date_parse (storedOr db "processing.startDate" "2024-01-01"))
       (storedOr db "processing.outputDirectory" "./data/parquet")
       (storedOr db "processing.tempDirectory" "./data/temp"))
    (mkDatabase (storedOr db "database.path" "./data/spx-pipeline.db")).

(** ** Sample data for the service and the commands *)

(** [configuration] holds a database path that the service accepts and a
    row under a key the service does not know. *)
Definition customPathDb : Database :=
  {[ "configuration" :=
       <["note" := mkRow "kept by hand" sampleNow]>
         {[ "database.path" := mkRow "./custom.db" sampleNow ]} ]}.

(** The same path written at another time, without the other row. *)
Definition customPathOnlyDb : Database :=
  {[ "configuration" := {[ "database.path" := mkRow "./custom.db" "2025-01-01 00:00:00" ]} ]}.

(** The flat form of the defaults, as [resetConfiguration] writes it. *)
Definition defaultFlat : list (string * string) :=
  [ ("thetadata.baseUrl", "http://localhost:25510");
    ("thetadata.maxConcurrentRequests", "4");
    ("processing.startDate", "2024-01-01");
    ("processing.outputDirectory", "./data/parquet");
    ("processing.tempDirectory", "./data/temp");
    ("database.path", "./data/spx-pipeline.db") ].

(** A process in New York (UTC-5) and one in Tokyo (UTC+9), at noon UTC on
    2026-11-02. *)
Definition newYorkEnv : Env := mkEnv "/home/user/project" 1793620800000 (-18000000).
Definition tokyoEnv : Env := mkEnv "/home/user/project" 1793620800000 32400000.
(** * Properties *)

(** ** The model on the inputs of the repository's tests *)

(** [Configuration.test.ts] *)

Example accepts_valid_urls :
  Ex.isFailure (validateThetaDataUrl "http://localhost:25510") = false
  ∧ Ex.isFailure (validateThetaDataUrl "https://api.thetadata.net") = false
  ∧ Ex.isFailure (validateThetaDataUrl "http://192.168.1.100:8080") = false.
Proof. repeat split. Qed.

Example rejects_invalid_urls :
  Ex.isFailure (validateThetaDataUrl "invalid-url") = true
  ∧ Ex.isFailure (validateThetaDataUrl "ftp://example.com") = true
  ∧ Ex.isFailure (validateThetaDataUrl "localhost:25510") = true
  ∧ Ex.isFailure (validateThetaDataUrl "") = true.
Proof. repeat split. Qed.

Example accepts_directory_paths :
  Ex.isFailure (validateDirectoryPath "./data/parquet") = false
  ∧ Ex.isFailure (validateDirectoryPath ".") = false
  ∧ Ex.isFailure (validateDirectoryPath "") = true.
Proof. repeat split. Qed.

Example accepts_db_paths :
  Ex.isFailure (validateDatabasePath "./data/spx-pipeline.db") = false
  ∧ Ex.isFailure (validateDatabasePath "relative.db") = false.
Proof. repeat split. Qed.

Example rejects_non_db_paths :
  Ex.isFailure (validateDatabasePath "./data/database.txt") = true
  ∧ Ex.isFailure (validateDatabasePath "database") = true
  ∧ Ex.isFailure (validateDatabasePath "database.sqlite") = true
  ∧ Ex.isFailure (validateDatabasePath "") = true.
Proof. repeat split. Qed.

Example rejects_request_limit_zero :
  Ex.isFailure
    (validateConfiguration (Pf := Reference.platform)
       (mkAppConfig (mkThetaData "http://localhost:25510" (Int 0))
          (mkProcessing (DateString "2024-01-01") "./data/parquet" "./data/temp")
          (mkDatabase "./data/spx-pipeline.db"))) = true.
Proof. reflexivity. Qed.

(** What [parseInt] makes of a few strings. *)
Example parseInt_samples :
  Js.parseInt "4" = Int 4 ∧ Js.parseInt "10" = Int 10
  ∧ Js.parseInt "  7" = Int 7 ∧ Js.parseInt "5abc" = Int 5
  ∧ Js.parseInt "3.7" = Int 3 ∧ Js.parseInt "-2" = Int (-2)
  ∧ Js.parseInt "abc" = NaN ∧ Js.parseInt "" = NaN.
Proof. repeat split. Qed.

(** [path.resolve] and [path.dirname]. *)
Example path_samples :
  Js.path_resolve "/home/user/project" "./data/temp" = "/home/user/project/data/temp"
  ∧ Js.path_resolve "/home/user/project" "../x/./y//z/" = "/home/user/x/y/z"
  ∧ Js.path_resolve "/home/user/project" "/tmp" = "/tmp"
  ∧ Js.path_resolve "/home/user/project" "" = "/home/user/project"
  ∧ Js.path_dirname "/home/user/project/data/spx-pipeline.db"
    = "/home/user/project/data"
  ∧ Js.path_dirname "/pipeline.db" = "/".
Proof. repeat split. Qed.

(** The reference platform on the dates the tests use. *)
Example date_samples :
  Reference.parse "2024-01-01" = TimeValue 1704067200000
  ∧ Reference.parse "2020-01-01" = TimeValue 1577836800000
  ∧ Reference.parse "2019-12-31" = TimeValue 1577750400000
  ∧ Reference.parse "invalid-date" = InvalidDate
  ∧ Reference.toString (TimeValue 1704067200000)
    = "Mon Jan 01 2024 00:00:00 GMT+0000 (Coordinated Universal Time)"
  ∧ Reference.toISOString (TimeValue 1704067200500) = "2024-01-01T00:00:00.500Z".
Proof. repeat split. Qed.

(** [ConfigurationValidation.test.ts] *)

Example rejects_same_directories :
  ∃ v, validateCrossFieldRules (Pf := Reference.platform) sampleEnv
         (mkAppConfig (thetaData DEFAULT_CONFIG)
            (mkProcessing (TimeValue 1704067200000) "./data/same" "./data/same")
            (database DEFAULT_CONFIG))
       = Failure (ConfigurationValidationError "processing" v
                    "Output directory and temp directory must be different").
Proof. eexists. vm_compute. reflexivity. Qed.

Example rejects_database_in_temp :
  validateCrossFieldRules (Pf := Reference.platform) sampleEnv
    (mkAppConfig (thetaData DEFAULT_CONFIG)
       (mkProcessing (TimeValue 1704067200000) "./data/parquet" "./data/temp")
       (mkDatabase "./data/temp/database.db"))
  = Failure (ConfigurationValidationError "database.path" "./data/temp/database.db"
               "Database should not be stored in temporary directory").
Proof. vm_compute. reflexivity. Qed.

(** [DatabaseInitialization.test.ts], the steps of the full lifecycle up
    to the second safe initialization. *)
Example lifecycle_safe_steps :
  getDatabaseStatus freshDb = (Success [mkTableInfo "configuration" false 0], freshDb)
  ∧ initializeTablesIfNeeded freshDb
    = (Success (mkInitResult ["configuration"] []), emptyConfigDb)
  ∧ setConfiguration sampleNow "lifecycle.test" "data" emptyConfigDb
    = (Success tt,
       {[ "configuration" := {[ "lifecycle.test" := mkRow "data" sampleNow ]} ]})
  ∧ initializeTablesIfNeeded
      {[ "configuration" := {[ "lifecycle.test" := mkRow "data" sampleNow ]} ]}
    = (Success (mkInitResult [] ["configuration"]),
       {[ "configuration" := {[ "lifecycle.test" := mkRow "data" sampleNow ]} ]}).
Proof. repeat split; vm_compute; reflexivity. Qed.

(** ** Table lifecycle *)

Lemma checkTableStatus_spec (n : string) (db : Database) :
  checkTableStatus n db = (Success (statusOf db n), db).
Proof.
  unfold checkTableStatus, statusOf, Eff.mapError, Eff.bind,
    Sql.select_master, Sql.count.
  destruct (db !! n) as [t|] eqn:Hn; simpl; rewrite ?Hn; reflexivity.
Qed.

Lemma all_checkTableStatus (ns : list string) (db : Database) :
  Eff.all (checkTableStatus <$> ns) db = (Success (statusOf db <$> ns), db).
Proof.
  induction ns as [|n ns IH]; [reflexivity|].
  rewrite !fmap_cons. cbn [Eff.all].
  unfold Eff.bind at 1. rewrite checkTableStatus_spec.
  unfold Eff.bind at 1. rewrite IH. reflexivity.
Qed.

Lemma getDatabaseStatus_spec (db : Database) :
  getDatabaseStatus db = (Success (statusOf db <$> tables), db).
Proof. apply all_checkTableStatus. Qed.

Lemma hasData_statusOf (db : Database) (n : string) :
  hasData (statusOf db n) = true ↔ populated db n.
Proof.
  unfold hasData, statusOf, populated.
  destruct (db !! n) as [t|]; simpl.
  - rewrite bool_decide_eq_true. split; [eauto|].
    intros (t' & [= <-] & ?). assumption.
  - split; [discriminate|]. intros (t' & [=] & _).
Qed.

Lemma tablesWithData_names (db : Database) (ns : list string) :
  name <$> filter (λ s, hasData s = true) (statusOf db <$> ns)
  = filter (populated db) ns.
Proof.
  induction ns as [|n ns IH]; [reflexivity|].
  rewrite fmap_cons, !filter_cons.
  destruct (decide (hasData (statusOf db n) = true)) as [H|H];
    destruct (decide (populated db n)) as [P|P].
  - rewrite fmap_cons, IH. f_equal.
    unfold statusOf. destruct (db !! n); reflexivity.
  - apply hasData_statusOf in H. contradiction.
  - apply hasData_statusOf in P. contradiction.
  - apply IH.
Qed.

Lemma safe_init_skips (db : Database) :
  filter (populated db) tables ≠ [] →
  initializeTablesIfNeeded db
  = (Success (mkInitResult [] (filter (populated db) tables)), db).
Proof.
  intros Hne. unfold initializeTablesIfNeeded, Eff.bind at 1.
  rewrite getDatabaseStatus_spec. cbv zeta.
  rewrite bool_decide_true.
  - unfold Eff.succeed. by rewrite tablesWithData_names.
  - rewrite <- (length_fmap name), tablesWithData_names.
    destruct (filter (populated db) tables); [done | simpl; lia].
Qed.

Lemma iterate_fixed {E A} (m : Effect E A) (db : Database) (k : nat) :
  (m db).2 = db → Eff.iterate k m db = db.
Proof. intros H. induction k as [|k IH]; simpl; [done | by rewrite H]. Qed.

(** C1. When some known table exists and holds rows, safe initialization
    succeeds with [created = []] and [skipped] the data-holding tables,
    and the database is left exactly as it was: nothing is created or
    altered, every row count is kept, also over ten consecutive runs. *)
Theorem safe_init_preserves_data (db : Database) :
  (∃ n, n ∈ tables ∧ populated db n) →
  initializeTablesIfNeeded db
  = (Success (mkInitResult [] (filter (populated db) tables)), db)
  ∧ (∀ n, n ∈ filter (populated db) tables ↔ n ∈ tables ∧ populated db n)
  ∧ Eff.iterate 10 initializeTablesIfNeeded db = db
  ∧ ∀ n t, db !! n = Some t →
      ∃ t', Eff.iterate 10 initializeTablesIfNeeded db !! n = Some t'
            ∧ (size t ≤ size t')%nat.
Proof.
  intros (n & Hin & Hpop).
  assert (Hne : filter (populated db) tables ≠ []).
  { intros Hnil. assert (Hn : n ∈ filter (populated db) tables)
      by (apply list_elem_of_filter; auto).
    rewrite Hnil in Hn. by apply not_elem_of_nil in Hn. }
  pose proof (safe_init_skips db Hne) as Hrun.
  assert (Hit : Eff.iterate 10 initializeTablesIfNeeded db = db)
    by (apply iterate_fixed; by rewrite Hrun).
  split; [exact Hrun|].
  split; [intros m; rewrite list_elem_of_filter; tauto|].
  split; [exact Hit|].
  intros m t Hm. exists t. rewrite Hit. split; [done | lia].
Qed.

Lemma populatedDb_populated : populated populatedDb "configuration".
Proof. eexists. split; [reflexivity | vm_compute; lia]. Defined.

Lemma safe_init_preserves_data_witness :
  initializeTablesIfNeeded populatedDb
  = (Success (mkInitResult [] ["configuration"]), populatedDb)
  ∧ Eff.iterate 10 initializeTablesIfNeeded populatedDb = populatedDb.
Proof.
  assert (H : ∃ n, n ∈ tables ∧ populated populatedDb n).
  { exists "configuration". split; [apply list_elem_of_here|].
    exact populatedDb_populated. }
  destruct (safe_init_preserves_data populatedDb H) as (Hrun & _ & Hit & _).
  split; [exact Hrun | exact Hit].
Defined.

Lemma safe_init_creates (db : Database) :
  db !! "configuration" = None →
  initializeTablesIfNeeded db
  = (Success (mkInitResult ["configuration"] []), <["configuration" := ∅]> db).
Proof.
  intros Hnone. unfold initializeTablesIfNeeded, Eff.bind at 1.
  rewrite getDatabaseStatus_spec. cbv zeta.
  unfold tables, statusOf. rewrite !fmap_cons, Hnone. simpl.
  unfold Eff.bind, createConfigurationTable, Eff.mapError,
    Sql.create_table_if_not_exists. by rewrite Hnone.
Qed.

Lemma safe_init_noop (db : Database) :
  db !! "configuration" = Some ∅ →
  initializeTablesIfNeeded db = (Success (mkInitResult [] []), db).
Proof.
  intros Hsome. unfold initializeTablesIfNeeded, Eff.bind at 1.
  rewrite getDatabaseStatus_spec. cbv zeta.
  unfold tables, statusOf. rewrite !fmap_cons, Hsome. reflexivity.
Qed.

(** C7. On a database where no known table exists, safe initialization
    creates exactly the known tables, empty, and reports all of them in
    [created]; run again at once it returns empty [created] and [skipped]
    and leaves the database as it is. *)
Theorem safe_init_fresh_then_idempotent (db : Database) :
  (∀ n, n ∈ tables → db !! n = None) →
  ∃ db',
    initializeTablesIfNeeded db = (Success (mkInitResult tables []), db')
    ∧ (∀ n, n ∈ tables → db' !! n = Some ∅)
    ∧ (∀ n, n ∉ tables → db' !! n = db !! n)
    ∧ initializeTablesIfNeeded db' = (Success (mkInitResult [] []), db').
Proof.
  intros Hfresh.
  assert (Hnone : db !! "configuration" = None)
    by (apply Hfresh, list_elem_of_here).
  exists (<["configuration" := ∅]> db).
  split; [by apply safe_init_creates|].
  split.
  { intros n Hn. apply list_elem_of_singleton in Hn as ->.
    by rewrite lookup_insert_eq. }
  split.
  { intros n Hn. rewrite lookup_insert_ne; [done|].
    intros <-. apply Hn, list_elem_of_here. }
  apply safe_init_noop. by rewrite lookup_insert_eq.
Qed.

Lemma safe_init_fresh_then_idempotent_witness :
  ∃ db',
    initializeTablesIfNeeded freshDb = (Success (mkInitResult tables []), db')
    ∧ (∀ n, n ∈ tables → db' !! n = Some ∅)
    ∧ (∀ n, n ∉ tables → db' !! n = freshDb !! n)
    ∧ initializeTablesIfNeeded db' = (Success (mkInitResult [] []), db').
Proof.
  apply (safe_init_fresh_then_idempotent freshDb).
  intros n _. reflexivity.
Defined.

(** C3. Without the confirmation flag the force-init command fails at
    once with the error that explains the flag, and the database is what
    it was: the same tables with the same rows, so also the same status
    for every table name. *)
Theorem force_init_requires_confirmation (db : Database) :
  ∃ db',
    databaseForceInitCommand false db
    = (Failure (JsError confirmationRequiredMessage), db')
    ∧ db' = db
    ∧ ∀ n, statusOf db' n = statusOf db n.
Proof.
  exists db. split.
  - unfold databaseForceInitCommand. cbn [negb].
    unfold Eff.bind at 1. unfold Eff.fail. reflexivity.
  - split; [reflexivity|]. intros n. reflexivity.
Qed.

Lemma force_init_refuses_existing (db : Database) (t : gmap string Row) :
  db !! "configuration" = Some t →
  forceInitializeAllTables db
  = (Failure (JsError
       "Force initialization requires explicit confirmation. Use --force-confirm flag."),
     db).
Proof.
  intros Hsome. unfold forceInitializeAllTables, Eff.bind at 1.
  rewrite getDatabaseStatus_spec. cbv zeta.
  unfold tables, statusOf. rewrite !fmap_cons, Hsome. reflexivity.
Qed.

Lemma force_init_confirmed_refuses_existing (db : Database) (t : gmap string Row) :
  db !! "configuration" = Some t →
  databaseForceInitCommand true db
  = (Failure (JsError
       "Error: Force initialization requires explicit confirmation. Use --force-confirm flag."),
     db).
Proof.
  intros Hsome. unfold databaseForceInitCommand.
  cbn [negb]. unfold Eff.bind at 1. cbn [Eff.succeed].
  unfold Eff.bind at 1, Eff.mapError.
  by rewrite (force_init_refuses_existing db t Hsome).
Qed.

(** C2 asks that a confirmed force initialization drops every existing
    table and recreates all known tables empty.  The code does not: with
    the confirmation flag given and a [configuration] table holding one
    row, the command fails with the confirmation error of
    [forceInitializeAllTables] and the table keeps its row. *)
Theorem force_init_confirmed_keeps_rows :
  databaseForceInitCommand true populatedDb
  = (Failure (JsError
       "Error: Force initialization requires explicit confirmation. Use --force-confirm flag."),
     populatedDb)
  ∧ statusOf populatedDb "configuration" = mkTableInfo "configuration" true 1.
Proof.
  split; [|reflexivity].
  by apply (force_init_confirmed_refuses_existing populatedDb _ eq_refl).
Qed.

(** ** Repository *)

Lemma setConfiguration_spec (now k v : string) (db : Database) :
  setConfiguration now k v db
  = match db !! "configuration" with
    | Some t => (Success tt, <["configuration" := <[k := mkRow v now]> t]> db)
    | None =>
        (Failure (ConfigurationPersistenceError "set" (NoSuchTable "configuration")),
         db)
    end.
Proof.
  unfold setConfiguration, Eff.mapError, Sql.execute.
  destruct (db !! "configuration"); reflexivity.
Qed.

Lemma elem_of_select_all (t : gmap string Row) (rec : ConfigurationRecord) :
  rec ∈ select_all_ordered t
  ↔ t !! key rec = Some (mkRow (value rec) (updated_at rec)).
Proof.
  unfold select_all_ordered. rewrite list_elem_of_fmap. split.
  - intros ([k [v u]] & -> & Hin). rewrite merge_sort_Permutation in Hin.
    by apply elem_of_map_to_list in Hin.
  - intros Hl. exists (key rec, mkRow (value rec) (updated_at rec)).
    split; [by destruct rec|].
    rewrite merge_sort_Permutation. by apply elem_of_map_to_list.
Qed.

(** What [getAllConfiguration] returns for the other keys is the same
    before and after the upsert. *)
Lemma getAll_frame_of_upsert (now k v : string) (db : Database)
    (recs : list ConfigurationRecord) :
  (getAllConfiguration db).1 = Success recs →
  ∃ recs',
    (getAllConfiguration (setConfiguration now k v db).2).1 = Success recs'
    ∧ ∀ rec, key rec ≠ k → rec ∈ recs' ↔ rec ∈ recs.
Proof.
  rewrite setConfiguration_spec.
  unfold getAllConfiguration, Eff.mapError, Sql.query.
  destruct (db !! "configuration") as [t|] eqn:Ht; [|done].
  cbn [fst snd]. intros [= <-]. rewrite lookup_insert_eq. cbn [fst].
  eexists. split; [reflexivity|]. intros rec Hne.
  rewrite !elem_of_select_all. by rewrite lookup_insert_ne.
Qed.

(** C10. The upsert [setConfiguration k v] changes at most the row whose
    key is [k]: every row with another key keeps its value and its
    [updated_at], in the table and in what [getAllConfiguration] returns,
    and every other table is left alone. *)
Theorem setConfiguration_frame (now k v : string) (db : Database) (k' : string) :
  k' ≠ k →
  storedRow (setConfiguration now k v db).2 k' = storedRow db k'
  ∧ (∀ n, n ≠ "configuration" → (setConfiguration now k v db).2 !! n = db !! n)
  ∧ (∀ recs, (getAllConfiguration db).1 = Success recs →
       ∃ recs',
         (getAllConfiguration (setConfiguration now k v db).2).1 = Success recs'
         ∧ ∀ rec, key rec = k' → rec ∈ recs' ↔ rec ∈ recs).
Proof.
  intros Hne. split; [|split].
  - rewrite setConfiguration_spec. unfold storedRow.
    destruct (db !! "configuration") as [t|] eqn:Ht; simpl.
    + rewrite lookup_insert_eq. simpl. by rewrite lookup_insert_ne.
    + by rewrite Ht.
  - intros n Hn. rewrite setConfiguration_spec.
    destruct (db !! "configuration"); simpl; [|done].
    by rewrite lookup_insert_ne.
  - intros recs Hrecs.
    destruct (getAll_frame_of_upsert now k v db recs Hrecs)
      as (recs' & Hrecs' & Hsame).
    exists recs'. split; [done|]. intros rec <-. by apply Hsame.
Qed.

Lemma setConfiguration_frame_witness :
  storedRow (setConfiguration "2024-01-02 00:00:00" "other.key" "v" populatedDb).2
    "delete.me"
  = Some (mkRow "will-be-lost" "2024-01-01 00:00:00").
Proof.
  assert (Hne : "delete.me" ≠ "other.key") by discriminate.
  destruct (setConfiguration_frame "2024-01-02 00:00:00" "other.key" "v"
              populatedDb "delete.me" Hne) as [-> _].
  reflexivity.
Defined.

(** ** The later revision drops and recreates *)

Lemma create_table_spec (n msg : string) (db : Database) :
  Eff.mapError (DatabaseConnectionError msg) (Sql.create_table_if_not_exists n) db
  = (Success tt, match db !! n with Some _ => db | None => <[n := ∅]> db end).
Proof.
  unfold Eff.mapError, Sql.create_table_if_not_exists. by destruct (db !! n).
Qed.






(** ** Configuration service *)

(** *** From the table to the plain object of key-value pairs *)

Lemma Record_set_lookup (k v k' : string) (o : gmap string string) :
  Record_set k v o !! k'
  = if bool_decide (k = k' ∧ k ≠ "__proto__") then Some v else o !! k'.
Proof.
  unfold Record_set. destruct (decide (k = "__proto__")) as [Hp|Hp].
  - rewrite (bool_decide_true _ Hp), bool_decide_false; [done | tauto].
  - rewrite (bool_decide_false _ Hp). destruct (decide (k = k')) as [->|Hne].
    + rewrite lookup_insert_eq, bool_decide_true; done.
    + rewrite lookup_insert_ne, bool_decide_false; [done | tauto | done].
Qed.

Lemma foldl_Record_set_lookup (l : list (string * Row)) (acc : gmap string string)
    (k : string) :
  NoDup l.*1 →
  foldl (λ acc record, Record_set (key record) (value record) acc) acc
    ((λ kr : string * Row, mkRecord kr.1 (row_value kr.2) (row_updated_at kr.2)) <$> l)
    !! k
  = if bool_decide (k = "__proto__") then acc !! k
    else match (list_to_map l : gmap string Row) !! k with
         | Some r => Some (row_value r)
         | None => acc !! k
         end.
Proof.
  revert acc. induction l as [|[k0 r0] l IH]; intros acc Hnd.
  { simpl. case_bool_decide; done. }
  rewrite fmap_cons in Hnd. apply NoDup_cons in Hnd as [Hk0 Hnd].
  rewrite fmap_cons. cbn [foldl]. rewrite IH by done. cbn [key value fst snd].
  rewrite Record_set_lookup.
  case_bool_decide as Hproto.
  { rewrite bool_decide_false; [done|]. intros [-> ?]. done. }
  cbn [list_to_map foldr uncurry]. cbn [fst snd].
  destruct (decide (k0 = k)) as [->|Hne].
  - rewrite lookup_insert_eq.
    rewrite (not_elem_of_list_to_map_1 _ k) by done.
    by rewrite bool_decide_true.
  - rewrite lookup_insert_ne by done.
    rewrite bool_decide_false; [done | tauto].
Qed.

Lemma configDataOf_select_all (t : gmap string Row) :
  configDataOf (select_all_ordered t) = row_value <$> delete "__proto__" t.
Proof.
  apply map_eq. intros k. unfold configDataOf, select_all_ordered.
  assert (Hperm : merge_sort key_le (map_to_list t) ≡ₚ map_to_list t)
    by apply merge_sort_Permutation.
  assert (Hnd : NoDup (merge_sort key_le (map_to_list t)).*1).
  { rewrite Hperm. apply NoDup_fst_map_to_list. }
  rewrite foldl_Record_set_lookup by done.
  rewrite (list_to_map_proper _ _ Hnd Hperm), list_to_map_to_list.
  rewrite lookup_fmap. case_bool_decide as Hproto.
  - subst k. by rewrite lookup_delete_eq.
  - rewrite lookup_delete_ne by done. by destruct (t !! k).
Qed.

Lemma getAllConfiguration_spec (db : Database) (t : gmap string Row) :
  db !! "configuration" = Some t →
  getAllConfiguration db = (Success (select_all_ordered t), db).
Proof.
  intros Ht. unfold getAllConfiguration, Eff.mapError, Sql.query. by rewrite Ht.
Qed.

Lemma getFullConfiguration_spec {Pf : Platform} (db : Database) (t : gmap string Row) :
  db !! "configuration" = Some t →
  getFullConfiguration db
  = if bool_decide (size (row_value <$> delete "__proto__" t) = 0%nat)
    then (Success (encoded DEFAULT_CONFIG), db)
    else match deserializeConfig (row_value <$> delete "__proto__" t) with
         | Success c => (Success (decoded c), db)
         | Failure e => (Failure e, db)
         end.
Proof.
  intros Ht. unfold getFullConfiguration, Eff.bind at 1.
  rewrite (getAllConfiguration_spec db t Ht). cbv zeta.
  rewrite configDataOf_select_all.
  case_bool_decide; [done|].
  unfold Eff.bind, fromExit.
  by destruct (deserializeConfig _).
Qed.

Lemma setConfigurationValue_accepted {Pf : Platform} (now k v : string) (db : Database) :
  validateByKey k v = Success tt →
  setConfigurationValue now k v db = setConfiguration now k v db.
Proof.
  intros Hok. unfold setConfigurationValue, Eff.bind, fromExit. by rewrite Hok.
Qed.

Lemma setConfigurationValue_rejected {Pf : Platform} (now k v : string) (db : Database)
    (e : Error) :
  validateByKey k v = Failure e →
  setConfigurationValue now k v db = (Failure e, db).
Proof.
  intros Hko. unfold setConfigurationValue, Eff.bind, fromExit. by rewrite Hko.
Qed.

Lemma getFull_empty {Pf : Platform} (db : Database) :
  db !! "configuration" = Some ∅ →
  getFullConfiguration db = (Success (encoded DEFAULT_CONFIG), db).
Proof.
  intros Ht. rewrite (getFullConfiguration_spec db ∅ Ht).
  rewrite delete_empty, fmap_empty, map_size_empty. done.
Qed.

Lemma getFull_after_set_path {Pf : Platform} (now : string) (db : Database) :
  db !! "configuration" = Some ∅ →
  let db1 := (setConfigurationValue now "database.path" "./x.db" db).2 in
  getFullConfiguration db1
  = (Success (decoded (mkAppConfig (thetaData DEFAULT_CONFIG)
                (mkProcessing (Date_parse "2024-01-01") "./data/parquet" "./data/temp")
                (mkDatabase "./x.db"))),
     db1).
Proof.
  intros Ht db1. subst db1.
  rewrite setConfigurationValue_accepted by reflexivity.
  rewrite setConfiguration_spec, Ht. cbn [snd].
  rewrite (getFullConfiguration_spec _ (<["database.path" := mkRow "./x.db" now]> ∅))
    by apply lookup_insert_eq.
  rewrite insert_empty, delete_singleton_ne by done.
  rewrite map_fmap_singleton, map_size_singleton. cbn [row_value].
  rewrite bool_decide_false by done.
  reflexivity.
Qed.

(** C4 (amended). On an empty [configuration] table, [getFullConfiguration]
    returns [DEFAULT_CONFIG] itself.  After
    [setConfigurationValue "database.path" "./x.db"] on that table it
    returns the validated merge: [database.path] is ["./x.db"], the other
    string and number fields are the defaults, and the start date is the
    [Date] that schema validation makes of the default string
    ["2024-01-01"]. *)
Theorem getFull_defaults_and_override {Pf : Platform} (now : string) (db : Database) :
  db !! "configuration" = Some ∅ →
  getFullConfiguration db = (Success (encoded DEFAULT_CONFIG), db)
  ∧ let db1 := (setConfigurationValue now "database.path" "./x.db" db).2 in
    storedRow db1 "database.path" = Some (mkRow "./x.db" now)
    ∧ getFullConfiguration db1
      = (Success (decoded (mkAppConfig (thetaData DEFAULT_CONFIG)
                    (mkProcessing (Date_parse "2024-01-01")
                       (outputDirectory (processing DEFAULT_CONFIG))
                       (tempDirectory (processing DEFAULT_CONFIG)))
                    (mkDatabase "./x.db"))),
         db1).
Proof.
  intros Ht. split; [by apply getFull_empty|].
  split; [|by apply getFull_after_set_path].
  rewrite setConfigurationValue_accepted by reflexivity.
  rewrite setConfiguration_spec, Ht. unfold storedRow. cbn [snd].
  rewrite lookup_insert_eq. cbn. by rewrite lookup_insert_eq.
Qed.

Lemma getFull_defaults_and_override_witness :
  getFullConfiguration (Pf := Reference.platform) emptyConfigDb
  = (Success (encoded DEFAULT_CONFIG), emptyConfigDb)
  ∧ let db1 := (setConfigurationValue (Pf := Reference.platform) sampleNow
                  "database.path" "./x.db" emptyConfigDb).2 in
    storedRow db1 "database.path" = Some (mkRow "./x.db" sampleNow)
    ∧ getFullConfiguration (Pf := Reference.platform) db1
      = (Success (decoded (mkAppConfig (thetaData DEFAULT_CONFIG)
                    (mkProcessing (Reference.parse "2024-01-01")
                       (outputDirectory (processing DEFAULT_CONFIG))
                       (tempDirectory (processing DEFAULT_CONFIG)))
                    (mkDatabase "./x.db"))),
         db1).
Proof.
  assert (Ht : emptyConfigDb !! "configuration" = Some ∅) by reflexivity.
  exact (getFull_defaults_and_override (Pf := Reference.platform)
           sampleNow emptyConfigDb Ht).
Defined.

(** C4 as stated fails: after the path is set, the start date that
    [getFullConfiguration] returns is a [Date] object, not the string the
    default configuration holds, so the result is not the default with
    only the path replaced. *)
Lemma getFull_startDate_not_default :
  let db1 := (setConfigurationValue (Pf := Reference.platform) sampleNow
                "database.path" "./x.db" emptyConfigDb).2 in
  ∃ c : ConfigObject,
    getFullConfiguration (Pf := Reference.platform) db1 = (Success c, db1)
    ∧ path (database c) = "./x.db"
    ∧ startDate (processing c) = DateObject (TimeValue 1704067200000)
    ∧ startDate (processing c) ≠ startDate (processing (encoded DEFAULT_CONFIG))
    ∧ c ≠ encoded (defaultWithPath "./x.db").
Proof.
  intros db1. eexists. split.
  - apply (getFull_after_set_path (Pf := Reference.platform) sampleNow emptyConfigDb).
    reflexivity.
  - repeat split; discriminate.
Qed.

(** *** Per-key validation on write *)

Lemma validateByKey_unknown {Pf : Platform} (k v : string) :
  k ∉ ConfigKeys.values →
  validateByKey k v
  = Failure (ConfigurationValidationError k v "Unknown configuration key").
Proof.
  intros Hk. unfold validateByKey.
  repeat (rewrite bool_decide_false;
          [| intros ->; apply Hk; unfold ConfigKeys.values; set_solver]).
  reflexivity.
Qed.

Lemma dropPrefix_Some (p s r : string) :
  Js.dropPrefix p s = Some r → s = p +:+ r.
Proof.
  revert s. induction p as [|a p IH]; intros s; simpl.
  - by intros [= ->].
  - destruct s as [|b s]; [done|].
    destruct (Ascii.eqb a b) eqn:Hab; [|done].
    apply Ascii.eqb_eq in Hab as ->. intros Hd. by rewrite (IH s Hd).
Qed.

Lemma matchAuthority_true (r : string) :
  Js.matchAuthority r = true → ∃ rest, r = "://" +:+ rest ∧ rest ≠ "".
Proof.
  unfold Js.matchAuthority.
  destruct (Js.dropPrefix "://" r) as [rest|] eqn:Hd; [|done].
  intros Hm. apply andb_true_iff in Hm as [Hne _].
  exists rest. split; [by apply dropPrefix_Some|].
  intros ->. done.
Qed.

Lemma test_httpUrl_scheme (v : string) :
  Js.test_httpUrl v = true → ruleUrlScheme v ∧ v ≠ "".
Proof.
  unfold Js.test_httpUrl, ruleUrlScheme.
  destruct (Js.dropPrefix "http" v) as [r|] eqn:Hd; [|done].
  apply dropPrefix_Some in Hd as ->.
  assert (Hplain : Js.matchAuthority r = true →
                   Js.startsWith ("http" +:+ r) "http://" = true).
  { intros (rest & -> & _)%matchAuthority_true. reflexivity. }
  destruct (Js.dropPrefix "s" r) as [r'|] eqn:Hs.
  - apply dropPrefix_Some in Hs as ->. intros [Hm|Hm]%orb_true_iff.
    + apply matchAuthority_true in Hm as (rest & -> & _).
      split; [right; reflexivity | done].
    + split; [left; by apply Hplain | done].
  - intros Hm. split; [left; by apply Hplain | done].
Qed.

Lemma validateByKey_baseUrl {Pf : Platform} (v : string) :
  ¬ ruleUrlScheme v →
  ∃ reason, validateByKey ConfigKeys.THETADATA_BASE_URL v
            = Failure (ConfigurationValidationError
                         ConfigKeys.THETADATA_BASE_URL v reason).
Proof.
  intros Hrule. unfold validateByKey. rewrite bool_decide_true by done.
  unfold validateThetaDataUrl, Schema.decodeBaseUrl, Schema.refine.
  destruct (Js.test_httpUrl v) eqn:Ht.
  - apply test_httpUrl_scheme in Ht as [? _]. contradiction.
  - eexists. reflexivity.
Qed.

Lemma validateByKey_directory {Pf : Platform} (k : string) :
  k = ConfigKeys.PROCESSING_OUTPUT_DIRECTORY
  ∨ k = ConfigKeys.PROCESSING_TEMP_DIRECTORY →
  ∃ reason, validateByKey k "" = Failure (ConfigurationValidationError k "" reason).
Proof. intros [->| ->]; eexists; reflexivity. Qed.

Lemma validateByKey_databasePath {Pf : Platform} (v : string) :
  ¬ ruleDbSuffix v →
  ∃ reason, validateByKey ConfigKeys.DATABASE_PATH v
            = Failure (ConfigurationValidationError ConfigKeys.DATABASE_PATH v reason).
Proof.
  intros Hrule. unfold validateByKey.
  rewrite !bool_decide_false by done. cbn [orb].
  rewrite bool_decide_true by done.
  unfold validateDatabasePath, Schema.decodeDatabasePath, Schema.minLength1,
    Schema.refine.
  case_bool_decide; cbn [Ex.bind Ex.asVoid Ex.mapError].
  - unfold Js.test_dbSuffix. destruct (Js.endsWith v ".db") eqn:He.
    + contradiction.
    + eexists. reflexivity.
  - eexists. reflexivity.
Qed.

Lemma validateByKey_maxConcurrentRequests {Pf : Platform} (v : string) :
  parsedOutOfRange v →
  validateByKey ConfigKeys.THETADATA_MAX_CONCURRENT_REQUESTS v
  = Failure (ConfigurationValidationError
               ConfigKeys.THETADATA_MAX_CONCURRENT_REQUESTS v
               "Must be a number between 1 and 10").
Proof.
  unfold parsedOutOfRange, validateByKey. intros Hout.
  rewrite !bool_decide_false by done. cbn [orb].
  rewrite bool_decide_true by done.
  destruct (Js.parseInt v) as [|z]; [done|].
  destruct Hout as [Hlo|Hhi].
  - by rewrite (bool_decide_true (z < 1)).
  - rewrite (bool_decide_true (z > 10)) by lia. by rewrite orb_true_r.
Qed.

Lemma validateByKey_startDate {Pf : Platform} (v : string) :
  validateByKey ConfigKeys.PROCESSING_START_DATE v = Success tt.
Proof. reflexivity. Qed.

(** C5 (amended). [setConfigurationValue] fails with a validation error
    naming the key, and leaves the database as it was, when the key is
    not one of the six known keys; when the base URL does not have the
    scheme http or https; when a directory is the empty string; when the
    database path does not end in [.db]; and when the integer [parseInt]
    reads from the request limit is missing or outside 1 to 10.  For the
    start date no string is rejected: the write goes to the repository as
    it is. *)
Theorem setValue_rejects_invalid {Pf : Platform} (now k v : string) (db : Database) :
  (k ∉ ConfigKeys.values
   ∨ (k = ConfigKeys.THETADATA_BASE_URL ∧ ¬ ruleUrlScheme v)
   ∨ (k = ConfigKeys.THETADATA_MAX_CONCURRENT_REQUESTS ∧ parsedOutOfRange v)
   ∨ ((k = ConfigKeys.PROCESSING_OUTPUT_DIRECTORY
       ∨ k = ConfigKeys.PROCESSING_TEMP_DIRECTORY) ∧ ¬ ruleNonEmpty v)
   ∨ (k = ConfigKeys.DATABASE_PATH ∧ ¬ ruleDbSuffix v)) →
  (∃ reason,
     setConfigurationValue now k v db
     = (Failure (ConfigurationValidationError k v reason), db))
  ∧ (∀ d, setConfigurationValue now ConfigKeys.PROCESSING_START_DATE d db
          = setConfiguration now ConfigKeys.PROCESSING_START_DATE d db).
Proof.
  intros Hbad. split;
    [|intros d; apply setConfigurationValue_accepted, validateByKey_startDate].
  assert (Hv : ∃ reason,
             validateByKey k v = Failure (ConfigurationValidationError k v reason)).
  { destruct Hbad as [Hk|[[-> Hr]|[[-> Hr]|[[Hk Hr]|[-> Hr]]]]].
    - eexists. by apply validateByKey_unknown.
    - by apply validateByKey_baseUrl.
    - eexists. by apply validateByKey_maxConcurrentRequests.
    - assert (v = "") as ->.
      { unfold ruleNonEmpty in Hr. by destruct (decide (v = "")). }
      by apply validateByKey_directory.
    - by apply validateByKey_databasePath. }
  destruct Hv as [reason Hv]. exists reason.
  by apply setConfigurationValue_rejected.
Qed.

Lemma setValue_rejects_invalid_witness :
  ∃ reason,
    setConfigurationValue (Pf := Reference.platform) sampleNow
      "database.path" "./database.txt" emptyConfigDb
    = (Failure (ConfigurationValidationError "database.path" "./database.txt" reason),
       emptyConfigDb).
Proof.
  refine (proj1 (setValue_rejects_invalid (Pf := Reference.platform) sampleNow
                   "database.path" "./database.txt" emptyConfigDb _)).
  right. right. right. right. split; [reflexivity|].
  unfold ruleDbSuffix. vm_compute. discriminate.
Defined.

(** C5 as stated fails on two keys.  ["5abc"] is not an integer from 1 to
    10, yet it is accepted for the request limit and written to the table;
    ["not-a-date"] does not parse to a date, yet it is accepted for the
    start date and written. *)
Lemma setValue_accepts_invalid :
  ¬ ruleIntegerRange "5abc"
  ∧ setConfigurationValue (Pf := Reference.platform) sampleNow
      "thetadata.maxConcurrentRequests" "5abc" emptyConfigDb
    = (Success tt,
       {[ "configuration" :=
            {[ "thetadata.maxConcurrentRequests" := mkRow "5abc" sampleNow ]} ]})
  ∧ ¬ ruleParseableDate (Pf := Reference.platform) "not-a-date"
  ∧ setConfigurationValue (Pf := Reference.platform) sampleNow
      "processing.startDate" "not-a-date" emptyConfigDb
    = (Success tt,
       {[ "configuration" :=
            {[ "processing.startDate" := mkRow "not-a-date" sampleNow ]} ]}).
Proof.
  split.
  { intros (z & Hz & Heq).
    assert (Hcases : z = 1 ∨ z = 2 ∨ z = 3 ∨ z = 4 ∨ z = 5 ∨ z = 6 ∨ z = 7
                     ∨ z = 8 ∨ z = 9 ∨ z = 10) by lia.
    destruct Hcases as [->|[->|[->|[->|[->|[->|[->|[->|[->| ->]]]]]]]]];
      vm_compute in Heq; discriminate. }
  split.
  { vm_compute. reflexivity. }
  split.
  { intros Hp. apply Hp. reflexivity. }
  vm_compute. reflexivity.
Qed.

(** *** Reading stored values back *)



(** A struct fails to decode as soon as one of its fields does. *)
Lemma decodeAppConfig_fails {Pf : Platform} (o : ConfigObject) :
  Ex.isFailure (Schema.decodeBaseUrl (baseUrl (thetaData o))) = true
  ∨ Ex.isFailure (Schema.decodeMaxConcurrentRequests
                    (maxConcurrentRequests (thetaData o))) = true
  ∨ Ex.isFailure (Schema.decodeStartDate (startDate (processing o))) = true
  ∨ Ex.isFailure (Schema.minLength1 (outputDirectory (processing o))) = true
  ∨ Ex.isFailure (Schema.minLength1 (tempDirectory (processing o))) = true
  ∨ Ex.isFailure (Schema.decodeDatabasePath (path (database o))) = true →
  Ex.isFailure (validateConfiguration o) = true.
Proof.
  unfold validateConfiguration, Schema.decodeAppConfig,
    Schema.decodeThetaDataConfig, Schema.decodeProcessingConfig,
    Schema.decodeDatabaseConfig, Schema.property.
  destruct (Schema.decodeBaseUrl _); [done|].
  destruct (Schema.decodeMaxConcurrentRequests _); [done|].
  destruct (Schema.decodeStartDate _); [done|].
  destruct (Schema.minLength1 (outputDirectory _)); [done|].
  destruct (Schema.minLength1 (tempDirectory _)); [done|].
  destruct (Schema.decodeDatabasePath _); [done|].
  cbn. intuition discriminate.
Qed.




(** The second validation of [validateFullConfiguration] is handed the
    decoded object, whose start date is a [Date] and not the string the
    schema decodes from: it fails whenever it is reached. *)
Lemma validateConfiguration_decoded_fails {Pf : Platform} (c : AppConfig) :
  Ex.isFailure (validateConfiguration (decoded c)) = true.
Proof. apply decodeAppConfig_fails. do 2 right. left. reflexivity. Qed.

Lemma validateFull_always_fails {Pf : Platform} (db : Database) (t : gmap string Row) :
  db !! "configuration" = Some t →
  ∃ k v reason,
    validateFullConfiguration db
    = (Failure (ConfigurationValidationError k v reason), db).
Proof.
  intros Ht. unfold validateFullConfiguration, Eff.bind at 1.
  rewrite (getAllConfiguration_spec db t Ht). cbv zeta.
  unfold Eff.bind, fromExit.
  destruct (deserializeConfig _) as [e|c] eqn:Hd.
  - unfold deserializeConfig in Hd.
    destruct (validateConfiguration _); [|done].
    cbn in Hd. injection Hd as <-. eexists _, _, _. reflexivity.
  - pose proof (validateConfiguration_decoded_fails c) as Hf.
    destruct (validateConfiguration (decoded c)); [|done].
    eexists _, _, _. reflexivity.
Qed.




(** *** Serialize and deserialize *)

Lemma fromEntries_serialize {Pf : Platform} (o : ConfigObject) :
  Record_fromEntries (serializeConfig o)
  = <[ConfigKeys.DATABASE_PATH := path (database o)]>
    (<[ConfigKeys.PROCESSING_TEMP_DIRECTORY := tempDirectory (processing o)]>
    (<[ConfigKeys.PROCESSING_OUTPUT_DIRECTORY := outputDirectory (processing o)]>
    (<[ConfigKeys.PROCESSING_START_DATE := DateField_toString (startDate (processing o))]>
    (<[ConfigKeys.THETADATA_MAX_CONCURRENT_REQUESTS :=
         Js.Number_toString (maxConcurrentRequests (thetaData o))]>
    (<[ConfigKeys.THETADATA_BASE_URL := baseUrl (thetaData o)]> ∅))))).
Proof. reflexivity. Qed.

Lemma parseInt_toString_small (z : Z) :
  1 ≤ z ≤ 10 → Js.parseInt (Js.Number_toString (Int z)) = Int z.
Proof.
  intros Hz.
  assert (Hcases : z = 1 ∨ z = 2 ∨ z = 3 ∨ z = 4 ∨ z = 5 ∨ z = 6 ∨ z = 7
                   ∨ z = 8 ∨ z = 9 ∨ z = 10) by lia.
  destruct Hcases as [->|[->|[->|[->|[->|[->|[->|[->|[->| ->]]]]]]]]];
    reflexivity.
Qed.

Lemma length_nonempty (s : string) : (1 ≤ String.length s)%nat → s ≠ "".
Proof. intros Hl ->. simpl in Hl. lia. Qed.

Lemma Number_toString_nonempty (z : Z) :
  1 ≤ z ≤ 10 → Js.Number_toString (Int z) ≠ "".
Proof.
  intros Hz Heq. pose proof (parseInt_toString_small z Hz) as Hp.
  rewrite Heq in Hp. discriminate.
Qed.

Lemma validateConfiguration_default {Pf : Platform} :
  validateConfiguration (encoded DEFAULT_CONFIG)
  = Success (mkAppConfig (thetaData DEFAULT_CONFIG)
               (mkProcessing (Date_parse "2024-01-01")
                  (outputDirectory (processing DEFAULT_CONFIG))
                  (tempDirectory (processing DEFAULT_CONFIG)))
               (database DEFAULT_CONFIG)).
Proof. reflexivity. Qed.

Lemma roundTrip_valid {Pf : Platform} (c : AppConfig) :
  validAppConfig c →
  Date_toString (startDate (processing c)) ≠ "" →
  roundTrip c
  = Success (mkAppConfig (thetaData c)
               (mkProcessing
                  (Date_parse (Date_toString (startDate (processing c))))
                  (outputDirectory (processing c))
                  (tempDirectory (processing c)))
               (database c)).
Proof.
  destruct c as [[u n] [d out tmp] [p]].
  intros (Hu & (z & Hn & Hz) & Hout & Htmp & Hp & Hdb) Hd.
  cbn [thetaData processing database baseUrl maxConcurrentRequests startDate
       outputDirectory tempDirectory path] in *.
  subst n.
  unfold roundTrip, deserializeConfig. rewrite fromEntries_serialize.
  unfold configObjectOf, decoded, encoded, mapStartDate.
  cbn [thetaData processing database baseUrl maxConcurrentRequests startDate
       outputDirectory tempDirectory path DateField_toString].
  assert (Hu' : u ≠ "") by (by apply test_httpUrl_scheme in Hu as [_ ?]).
  pose proof (parseInt_toString_small z Hz) as Hparse.
  pose proof (Number_toString_nonempty z Hz) as Hnum.
  pose proof (length_nonempty _ Hout) as Hout'.
  pose proof (length_nonempty _ Htmp) as Htmp'.
  pose proof (length_nonempty _ Hp) as Hp'.
  remember (Js.Number_toString (Int z)) as ns eqn:Hns. clear Hns.
  unfold getOr. simplify_map_eq.
  rewrite !bool_decide_false by done.
  unfold validateConfiguration, Schema.decodeAppConfig,
    Schema.decodeThetaDataConfig, Schema.decodeProcessingConfig,
    Schema.decodeDatabaseConfig, Schema.decodeBaseUrl,
    Schema.decodeMaxConcurrentRequests, Schema.decodeDatabasePath,
    Schema.minLength1, Schema.decodeStartDate, Schema.refine, Schema.property.
  cbn [thetaData processing database baseUrl maxConcurrentRequests startDate
       outputDirectory tempDirectory path].
  rewrite Hu, Hparse, !bool_decide_true by first [ done | lia ].
  cbn [Ex.bind Ex.mapError Js.isSafeInteger].
  rewrite !bool_decide_true by first [ done | lia ].
  cbn [Ex.bind Ex.mapError]. rewrite Hdb.
  rewrite (bool_decide_true (1 ≤ z ≤ 10)) by lia. reflexivity.
Qed.

(** C9 (amended). The default configuration passes schema validation.
    For a decoded configuration that satisfies the schema, serializing and
    deserializing gives back the configuration whenever its start date
    survives [toString] followed by date parsing (as ECMAScript requires
    of every date with a zero millisecond part) and does not print as the
    empty string. *)
Theorem roundTrip_when_date_survives {Pf : Platform} (c : AppConfig) :
  validAppConfig c →
  Date_toString (startDate (processing c)) ≠ "" →
  Date_parse (Date_toString (startDate (processing c))) = startDate (processing c) →
  validateConfiguration (encoded DEFAULT_CONFIG)
  = Success (mkAppConfig (thetaData DEFAULT_CONFIG)
               (mkProcessing (Date_parse "2024-01-01")
                  (outputDirectory (processing DEFAULT_CONFIG))
                  (tempDirectory (processing DEFAULT_CONFIG)))
               (database DEFAULT_CONFIG))
  ∧ roundTrip c = Success c.
Proof.
  intros Hvalid Hprint Hdate. split; [reflexivity|].
  rewrite (roundTrip_valid c Hvalid Hprint), Hdate.
  by destruct c as [[u n] [d out tmp] [p]].
Qed.

Lemma defaultDecoded_valid : validAppConfig defaultDecoded.
Proof.
  unfold validAppConfig. cbn.
  split; [reflexivity|]. split; [exists 4; split; [reflexivity | lia]|].
  repeat split; try lia.
Defined.

Lemma roundTrip_when_date_survives_witness :
  validateConfiguration (Pf := Reference.platform) (encoded DEFAULT_CONFIG)
  = Success defaultDecoded
  ∧ roundTrip (Pf := Reference.platform) defaultDecoded = Success defaultDecoded.
Proof.
  split; [reflexivity|].
  refine (proj2 (roundTrip_when_date_survives (Pf := Reference.platform)
                   defaultDecoded defaultDecoded_valid _ _)).
  - vm_compute. discriminate.
  - vm_compute. reflexivity.
Defined.

(** C9 as stated fails: a valid configuration whose start date has a
    millisecond part comes back with the date cut to the whole second,
    because [toString] does not print milliseconds. *)
Lemma roundTrip_drops_milliseconds :
  validAppConfig halfSecondLater
  ∧ validateConfiguration (Pf := Reference.platform)
      (mkAppConfig (thetaData DEFAULT_CONFIG)
         (mkProcessing (DateString "2024-01-01T00:00:00.500Z")
            "./data/parquet" "./data/temp")
         (database DEFAULT_CONFIG))
    = Success halfSecondLater
  ∧ roundTrip (Pf := Reference.platform) halfSecondLater = Success defaultDecoded
  ∧ roundTrip (Pf := Reference.platform) halfSecondLater ≠ Success halfSecondLater.
Proof.
  split.
  { unfold validAppConfig. cbn.
    split; [reflexivity|]. split; [exists 4; split; [reflexivity | lia]|].
    repeat split; try lia. }
  split; [reflexivity|].
  assert (Hrt : roundTrip (Pf := Reference.platform) halfSecondLater
                = Success defaultDecoded) by (vm_compute; reflexivity).
  split; [exact Hrt|]. rewrite Hrt. discriminate.
Qed.

(** ** Cross-field rules *)









(** The prefix test of the second rule also catches a sibling of the temp
    directory whose name starts with the temp directory's name. *)
Example crossField_rejects_sibling_of_temp :
  validateCrossFieldRules (Pf := Reference.platform) sampleEnv
    (mkAppConfig (thetaData DEFAULT_CONFIG)
       (mkProcessing (TimeValue 1704067200000) "./data/parquet" "./data/temp")
       (mkDatabase "./data/temp2/pipeline.db"))
  = Failure (ConfigurationValidationError "database.path" "./data/temp2/pipeline.db"
               "Database should not be stored in temporary directory").
Proof. vm_compute. reflexivity. Qed.

(** * Further properties of the repository, the lifecycle and the commands *)

(** ** Repository *)

Lemma getConfiguration_spec (k : string) (db : Database) :
  getConfiguration k db
  = match db !! "configuration" with
    | None =>
        (Failure (ConfigurationPersistenceError "get" (NoSuchTable "configuration")),
         db)
    | Some t =>
        match t !! k with
        | Some r => (Success (row_value r), db)
        | None => (Failure (ConfigurationNotFoundError k), db)
        end
    end.
Proof.
  unfold getConfiguration, Eff.mapError, Eff.bind, Sql.query.
  destruct (db !! "configuration") as [t|]; [|done].
  by destruct (t !! k).
Qed.

Lemma hasConfiguration_spec (k : string) (db : Database) :
  hasConfiguration k db
  = match db !! "configuration" with
    | None =>
        (Failure (ConfigurationPersistenceError "has" (NoSuchTable "configuration")),
         db)
    | Some t => (Success (bool_decide (is_Some (t !! k))), db)
    end.
Proof.
  unfold hasConfiguration, Eff.mapError, Sql.query.
  by destruct (db !! "configuration").
Qed.

(** X1. What [setConfiguration] writes is what [getConfiguration] reads:
    on a database with the table, after the upsert of [k] with [v] the key
    exists and reads back as [v], stamped with the engine's clock. *)
Theorem set_then_get (now k v : string) (db : Database) :
  is_Some (db !! "configuration") →
  ∃ db',
    setConfiguration now k v db = (Success tt, db')
    ∧ getConfiguration k db' = (Success v, db')
    ∧ hasConfiguration k db' = (Success true, db')
    ∧ storedRow db' k = Some (mkRow v now).
Proof.
  intros [t Ht]. rewrite setConfiguration_spec, Ht.
  eexists. split; [reflexivity|].
  rewrite getConfiguration_spec, hasConfiguration_spec. unfold storedRow.
  rewrite !lookup_insert_eq. cbn. rewrite !lookup_insert_eq.
  repeat split.
Qed.

Lemma set_then_get_witness :
  ∃ db',
    setConfiguration sampleNow "test.key1" "value1" emptyConfigDb = (Success tt, db')
    ∧ getConfiguration "test.key1" db' = (Success "value1", db')
    ∧ hasConfiguration "test.key1" db' = (Success true, db')
    ∧ storedRow db' "test.key1" = Some (mkRow "value1" sampleNow).
Proof.
  apply (set_then_get sampleNow "test.key1" "value1" emptyConfigDb).
  exists ∅. reflexivity.
Defined.

(** X2. [getConfigurationWithDefault] returns the stored value when the key
    is there, the default when only the key is missing (where
    [getConfiguration] fails with the not-found error), and passes the
    persistence error on when the table itself is missing.  The database
    is never changed. *)
Theorem getWithDefault_cases (k defaultValue : string) (db : Database) :
  (∀ t r, db !! "configuration" = Some t → t !! k = Some r →
     getConfigurationWithDefault k defaultValue db = (Success (row_value r), db))
  ∧ (∀ t, db !! "configuration" = Some t → t !! k = None →
       getConfiguration k db = (Failure (ConfigurationNotFoundError k), db)
       ∧ getConfigurationWithDefault k defaultValue db = (Success defaultValue, db))
  ∧ (db !! "configuration" = None →
       getConfiguration k db
       = (Failure (ConfigurationPersistenceError "get" (NoSuchTable "configuration")),
          db)
       ∧ getConfigurationWithDefault k defaultValue db
         = (Failure (ConfigurationPersistenceError "get"
                       (NoSuchTable "configuration")), db)).
Proof.
  unfold getConfigurationWithDefault, Eff.catchNotFound.
  rewrite getConfiguration_spec.
  split; [|split].
  - intros t r -> ->. reflexivity.
  - intros t -> ->. split; reflexivity.
  - intros ->. split; reflexivity.
Qed.

Lemma getWithDefault_cases_witness :
  getConfigurationWithDefault "delete.me" "fallback" populatedDb
  = (Success "will-be-lost", populatedDb)
  ∧ getConfigurationWithDefault "missing.key" "fallback" populatedDb
    = (Success "fallback", populatedDb)
  ∧ getConfigurationWithDefault "missing.key" "fallback" freshDb
    = (Failure (ConfigurationPersistenceError "get" (NoSuchTable "configuration")),
       freshDb).
Proof.
  pose proof (getWithDefault_cases "delete.me" "fallback" populatedDb)
    as (Hfound & _ & _).
  pose proof (getWithDefault_cases "missing.key" "fallback" populatedDb)
    as (_ & Hmissing & _).
  pose proof (getWithDefault_cases "missing.key" "fallback" freshDb)
    as (_ & _ & Hnotable).
  split; [|split].
  - exact (Hfound _ (mkRow "will-be-lost" "2024-01-01 00:00:00") eq_refl eq_refl).
  - exact (proj2 (Hmissing _ eq_refl eq_refl)).
  - exact (proj2 (Hnotable eq_refl)).
Defined.

Lemma deleteConfiguration_spec (k : string) (db : Database) :
  deleteConfiguration k db
  = match db !! "configuration" with
    | Some t => (Success tt, <["configuration" := delete k t]> db)
    | None =>
        (Failure (ConfigurationPersistenceError "delete"
                    (NoSuchTable "configuration")), db)
    end.
Proof.
  unfold deleteConfiguration, Eff.mapError, Sql.execute.
  by destruct (db !! "configuration").
Qed.

(** X3. [deleteConfiguration k] removes the row of [k] and nothing else:
    afterwards [k] is not found and does not exist, every other key reads
    as before, and deleting a key that is not there succeeds and leaves
    the database exactly as it was. *)
Theorem delete_removes_only_key (k : string) (db : Database) (t : gmap string Row) :
  db !! "configuration" = Some t →
  ∃ db',
    deleteConfiguration k db = (Success tt, db')
    ∧ getConfiguration k db' = (Failure (ConfigurationNotFoundError k), db')
    ∧ hasConfiguration k db' = (Success false, db')
    ∧ (∀ k', k' ≠ k → storedRow db' k' = storedRow db k')
    ∧ (∀ n, n ≠ "configuration" → db' !! n = db !! n)
    ∧ (t !! k = None → db' = db).
Proof.
  intros Ht. rewrite deleteConfiguration_spec, Ht.
  eexists. split; [reflexivity|].
  rewrite getConfiguration_spec, hasConfiguration_spec. unfold storedRow.
  rewrite !lookup_insert_eq, !lookup_delete_eq. rewrite Ht. cbn.
  split; [done|]. split; [done|].
  split.
  { intros k' Hne. by rewrite lookup_delete_ne. }
  split.
  { intros n Hn. by rewrite lookup_insert_ne. }
  intros Hnone. rewrite delete_id by done. by apply insert_id.
Qed.

Lemma delete_removes_only_key_witness :
  ∃ db',
    deleteConfiguration "delete.me" populatedDb = (Success tt, db')
    ∧ getConfiguration "delete.me" db'
      = (Failure (ConfigurationNotFoundError "delete.me"), db').
Proof.
  destruct (delete_removes_only_key "delete.me" populatedDb
              {[ "delete.me" := mkRow "will-be-lost" "2024-01-01 00:00:00" ]} eq_refl)
    as (db' & Hdel & Hget & _).
  exists db'. split; [exact Hdel | exact Hget].
Defined.

(** X4. The upsert overwrites in place: writing a key twice leaves the
    database as the second write alone would, the row count stays the same
    when the key was there and grows by one when it was not. *)
Theorem upsert_overwrites (now1 now2 k v1 v2 : string) (db : Database)
    (t : gmap string Row) :
  db !! "configuration" = Some t →
  (setConfiguration now2 k v2 (setConfiguration now1 k v1 db).2).2
  = (setConfiguration now2 k v2 db).2
  ∧ (checkTableStatus "configuration" (setConfiguration now2 k v2 db).2).1
    = Success (mkTableInfo "configuration" true
                 (if bool_decide (is_Some (t !! k)) then size t else S (size t))).
Proof.
  intros Ht. rewrite !setConfiguration_spec, Ht. cbn [snd].
  rewrite lookup_insert_eq. cbn [snd]. split.
  - by rewrite insert_insert_eq, insert_insert_eq.
  - rewrite checkTableStatus_spec. cbn [fst]. unfold statusOf.
    rewrite lookup_insert_eq. do 2 f_equal.
    case_bool_decide as Hk.
    + destruct Hk as [r Hr]. rewrite <- (insert_delete_id t k r Hr) at 2.
      rewrite <- (insert_delete_eq t), !map_size_insert_None;
        by rewrite ?lookup_delete_eq.
    + apply map_size_insert_None. by apply eq_None_not_Some.
Qed.

Lemma upsert_overwrites_witness :
  (checkTableStatus "configuration"
     (setConfiguration sampleNow "delete.me" "new" populatedDb).2).1
  = Success (mkTableInfo "configuration" true 1).
Proof.
  exact (proj2 (upsert_overwrites sampleNow sampleNow "delete.me" "old" "new"
                  populatedDb _ eq_refl)).
Defined.

Lemma key_le_total : Total key_le.
Proof. intros [k1 r1] [k2 r2]. unfold key_le. apply (total String.le). Qed.

Lemma key_le_trans : Transitive key_le.
Proof.
  intros [k1 r1] [k2 r2] [k3 r3]. unfold key_le. cbn. apply transitivity.
Qed.

(** X5. [getAllConfiguration] returns every row exactly once, in ascending
    order of the keys, and as many records as [checkTableStatus] counts
    rows. *)
Theorem getAll_sorted_complete (db : Database) (t : gmap string Row) :
  db !! "configuration" = Some t →
  ∃ recs,
    getAllConfiguration db = (Success recs, db)
    ∧ StronglySorted (λ r1 r2, String.le (key r1) (key r2)) recs
    ∧ NoDup (key <$> recs)
    ∧ (∀ rec, rec ∈ recs ↔ t !! key rec = Some (mkRow (value rec) (updated_at rec)))
    ∧ (checkTableStatus "configuration" db).1
      = Success (mkTableInfo "configuration" true (length recs)).
Proof.
  intros Ht. exists (select_all_ordered t).
  split; [by apply getAllConfiguration_spec|].
  assert (Hperm : merge_sort key_le (map_to_list t) ≡ₚ map_to_list t)
    by apply merge_sort_Permutation.
  split.
  { unfold select_all_ordered.
    apply (StronglySorted_fmap _ key_le); [by intros [??] [??]|].
    apply (@StronglySorted_merge_sort _ key_le _ key_le_trans key_le_total). }
  split.
  { unfold select_all_ordered. rewrite <- list_fmap_compose.
    assert (Heq : (key ∘ (λ kr : string * Row,
                     mkRecord kr.1 (row_value kr.2) (row_updated_at kr.2)))
                  <$> merge_sort key_le (map_to_list t)
                  = (merge_sort key_le (map_to_list t)).*1)
      by (by apply list_fmap_ext).
    rewrite Heq, Hperm. apply NoDup_fst_map_to_list. }
  split; [apply elem_of_select_all|].
  rewrite checkTableStatus_spec. unfold statusOf. rewrite Ht. cbn [fst].
  unfold select_all_ordered.
  by rewrite length_fmap, Hperm, length_map_to_list.
Qed.

Lemma getAll_sorted_complete_witness :
  ∃ recs,
    getAllConfiguration populatedDb = (Success recs, populatedDb)
    ∧ length recs = 1%nat.
Proof.
  destruct (getAll_sorted_complete populatedDb
              {[ "delete.me" := mkRow "will-be-lost" "2024-01-01 00:00:00" ]} eq_refl)
    as (recs & Hget & _ & _ & _ & Hcount).
  exists recs. split; [exact Hget|].
  rewrite checkTableStatus_spec in Hcount. cbn [fst] in Hcount.
  assert (Hs : statusOf populatedDb "configuration"
               = mkTableInfo "configuration" true 1)
    by (vm_compute; reflexivity).
  rewrite Hs in Hcount. congruence.
Defined.

Lemma setAll_spec (now : string) (configs : list (string * string)) (db : Database)
    (t : gmap string Row) :
  db !! "configuration" = Some t →
  Eff.all ((λ kv : string * string, setConfiguration now kv.1 kv.2) <$> configs) db
  = (Success (replicate (length configs) tt),
     <["configuration" :=
         foldl (λ acc kv, <[kv.1 := mkRow kv.2 now]> acc) t configs]> db).
Proof.
  revert db t. induction configs as [|[k v] configs IH]; intros db t Ht.
  { cbn. by rewrite insert_id. }
  rewrite fmap_cons. cbn [Eff.all]. unfold Eff.bind at 1.
  rewrite setConfiguration_spec, Ht. cbn [fst snd].
  unfold Eff.bind at 1.
  rewrite (IH _ (<[k := mkRow v now]> t)) by apply lookup_insert_eq.
  cbn. by rewrite insert_insert_eq.
Qed.

Lemma foldl_insert_lookup (now : string) (configs : list (string * string))
    (t : gmap string Row) (k : string) :
  NoDup configs.*1 →
  foldl (λ acc kv, <[kv.1 := mkRow kv.2 now]> acc) t configs !! k
  = match (list_to_map configs : gmap string string) !! k with
    | Some v => Some (mkRow v now)
    | None => t !! k
    end.
Proof.
  revert t. induction configs as [|[k0 v0] configs IH]; intros t Hnd; [done|].
  rewrite fmap_cons in Hnd. apply NoDup_cons in Hnd as [Hk0 Hnd].
  cbn [foldl]. rewrite IH by done. cbn [list_to_map foldr uncurry fst snd].
  destruct (decide (k0 = k)) as [->|Hne].
  - rewrite lookup_insert_eq, (not_elem_of_list_to_map_1 _ k) by done.
    by rewrite lookup_insert_eq.
  - rewrite !lookup_insert_ne by done. done.
Qed.



(** ** Table lifecycle *)

Lemma safe_init_cases (db : Database) :
  initializeTablesIfNeeded db
  = match db !! "configuration" with
    | None =>
        (Success (mkInitResult ["configuration"] []), <["configuration" := ∅]> db)
    | Some t =>
        if bool_decide (0 < size t)%nat
        then (Success (mkInitResult [] ["configuration"]), db)
        else (Success (mkInitResult [] []), db)
    end.
Proof.
  destruct (db !! "configuration") as [t|] eqn:Ht; [|by apply safe_init_creates].
  case_bool_decide as Hsize.
  - assert (Hpop : populated db "configuration") by (exists t; done).
    rewrite safe_init_skips; unfold tables; rewrite filter_cons, decide_True by done.
    + done.
    + done.
  - apply safe_init_noop. rewrite Ht. f_equal.
    apply map_size_empty_iff. lia.
Qed.

(** X7. Safe initialization never fails and never loses anything, whatever
    the database holds: every table that was there is there with the same
    rows, the [configuration] table exists afterwards, only tables that
    were missing are reported as created, only tables holding rows as
    skipped, and never both. *)
Theorem safe_init_never_loses (db : Database) :
  ∃ r db',
    initializeTablesIfNeeded db = (Success r, db')
    ∧ (∀ n t, db !! n = Some t → db' !! n = Some t)
    ∧ is_Some (db' !! "configuration")
    ∧ (∀ n, n ∈ created r → db !! n = None ∧ db' !! n = Some ∅)
    ∧ (∀ n, n ∈ skipped r → populated db n)
    ∧ (created r = [] ∨ skipped r = []).
Proof.
  rewrite safe_init_cases.
  destruct (db !! "configuration") as [t|] eqn:Ht.
  - case_bool_decide as Hsize; eexists _, _; (split; [reflexivity|]); cbn.
    + split; [done|]. split; [by exists t|].
      split; [intros n Hn; by apply not_elem_of_nil in Hn|].
      split; [|by left].
      intros n ->%list_elem_of_singleton. by exists t.
    + split; [done|]. split; [by exists t|].
      split; [intros n Hn; by apply not_elem_of_nil in Hn|].
      split; [|by left].
      intros n Hn. by apply not_elem_of_nil in Hn.
  - eexists _, _. split; [reflexivity|]. cbn.
    split.
    { intros n t Hn. rewrite lookup_insert_ne; [done|]. intros <-. congruence. }
    split; [by rewrite lookup_insert_eq|].
    split.
    { intros n ->%list_elem_of_singleton. by rewrite lookup_insert_eq. }
    split; [|by right].
    intros n Hn. by apply not_elem_of_nil in Hn.
Qed.

(** X8. Safe initialization is idempotent on every database: a second run
    creates nothing and changes nothing, and any number of further runs
    leaves the database as the first run left it. *)
Theorem safe_init_idempotent (db : Database) (k : nat) :
  ∃ r2,
    initializeTablesIfNeeded (initializeTablesIfNeeded db).2
    = (Success r2, (initializeTablesIfNeeded db).2)
    ∧ created r2 = []
    ∧ skipped r2 = skipped (match (initializeTablesIfNeeded db).1 with
                            | Success r => r
                            | Failure _ => mkInitResult [] []
                            end)
    ∧ Eff.iterate (S k) initializeTablesIfNeeded db
      = (initializeTablesIfNeeded db).2.
Proof.
  assert (Hsecond : ∃ r2,
            initializeTablesIfNeeded (initializeTablesIfNeeded db).2
            = (Success r2, (initializeTablesIfNeeded db).2)
            ∧ created r2 = []
            ∧ skipped r2 = skipped (match (initializeTablesIfNeeded db).1 with
                                    | Success r => r
                                    | Failure _ => mkInitResult [] []
                                    end)).
  { rewrite (safe_init_cases db).
    destruct (db !! "configuration") as [t|] eqn:Ht.
    - case_bool_decide as Hsize; cbn [fst snd];
        rewrite safe_init_cases, Ht;
        [rewrite bool_decide_true by done | rewrite bool_decide_false by done];
        eexists; (split; [reflexivity|]); split; reflexivity.
    - cbn [fst snd]. rewrite safe_init_cases, lookup_insert_eq.
      rewrite bool_decide_false by (rewrite map_size_empty; lia).
      eexists; (split; [reflexivity|]); split; reflexivity. }
  destruct Hsecond as (r2 & Hrun & Hcreated & Hskipped).
  exists r2. split; [done|]. split; [done|]. split; [done|].
  cbn [Eff.iterate]. apply iterate_fixed. by rewrite Hrun.
Qed.

Lemma force_init_cases (db : Database) :
  forceInitializeAllTables db
  = match db !! "configuration" with
    | Some _ =>
        (Failure (JsError
           "Force initialization requires explicit confirmation. Use --force-confirm flag."),
         db)
    | None => (Success tt, <["configuration" := ∅]> db)
    end.
Proof.
  destruct (db !! "configuration") as [t|] eqn:Ht.
  - by apply (force_init_refuses_existing db t).
  - unfold forceInitializeAllTables, Eff.bind at 1.
    rewrite getDatabaseStatus_spec. cbv zeta.
    unfold tables, statusOf. rewrite !fmap_cons, Ht. cbn [fmap list_fmap].
    rewrite filter_cons, decide_False by done. rewrite filter_nil.
    rewrite bool_decide_false by (cbn; lia).
    unfold Eff.bind, createConfigurationTable, Eff.mapError,
      Sql.create_table_if_not_exists. rewrite Ht. reflexivity.
Qed.

(** X9. The force initialization of [DatabaseInitialization.ts] destroys
    nothing: with or without the confirmation flag, every table is
    afterwards what it was.  The command succeeds exactly when the flag is
    given and the [configuration] table does not exist yet, and then it
    creates the table empty. *)
Theorem force_init_never_destroys (forceConfirm : bool) (db : Database) :
  (∀ n t, db !! n = Some t →
     (databaseForceInitCommand forceConfirm db).2 !! n = Some t)
  ∧ ((databaseForceInitCommand forceConfirm db).1 = Success tt
     ↔ forceConfirm = true ∧ db !! "configuration" = None)
  ∧ ((databaseForceInitCommand forceConfirm db).1 = Success tt →
     (databaseForceInitCommand forceConfirm db).2 = <["configuration" := ∅]> db).
Proof.
  destruct forceConfirm.
  - destruct (db !! "configuration") as [t|] eqn:Ht.
    + assert (Hrun : ∃ e, databaseForceInitCommand true db = (Failure e, db)).
      { unfold databaseForceInitCommand, Eff.bind, Eff.mapError. cbn [negb Eff.succeed].
        rewrite force_init_cases, Ht. eauto. }
      destruct Hrun as [e ->]. cbn [fst snd].
      split; [done|]. split; [|done]. split; [done|]. by intros [_ ?].
    + assert (Hrun : databaseForceInitCommand true db
                     = (Success tt, <["configuration" := ∅]> db)).
      { unfold databaseForceInitCommand, Eff.bind, Eff.mapError. cbn [negb Eff.succeed].
        by rewrite force_init_cases, Ht. }
      rewrite Hrun. cbn [fst snd]. split.
      { intros n t Hn. rewrite lookup_insert_ne; [done|]. intros <-. congruence. }
      split; [|done]. by split.
  - cbn. split; [done|]. split; [|done]. split; [done|]. by intros [? _].
Qed.

Lemma safe_init_never_loses_witness :
  ∃ r db',
    initializeTablesIfNeeded populatedDb = (Success r, db')
    ∧ db' !! "configuration"
      = Some {[ "delete.me" := mkRow "will-be-lost" "2024-01-01 00:00:00" ]}.
Proof.
  destruct (safe_init_never_loses populatedDb) as (r & db' & Hrun & Hkeep & _).
  exists r, db'. split; [exact Hrun|]. apply Hkeep. reflexivity.
Defined.

Lemma force_init_never_destroys_witness :
  (databaseForceInitCommand true populatedDb).2 !! "configuration"
  = Some {[ "delete.me" := mkRow "will-be-lost" "2024-01-01 00:00:00" ]}
  ∧ (databaseForceInitCommand true freshDb).2 = <["configuration" := ∅]> freshDb.
Proof.
  split.
  - apply (proj1 (force_init_never_destroys true populatedDb)). reflexivity.
  - apply (proj2 (proj2 (force_init_never_destroys true freshDb))).
    apply (proj1 (proj2 (force_init_never_destroys true freshDb))).
    split; reflexivity.
Defined.

(** ** Configuration service *)

Lemma getOr_cases (o : gmap string string) (k fallback : string) :
  getOr o k fallback = fallback
  ∨ ∃ v, o !! k = Some v ∧ v ≠ "" ∧ getOr o k fallback = v.
Proof.
  unfold getOr. destruct (o !! k) as [v|]; [|by left].
  case_bool_decide; [by left|]. right. eauto.
Qed.

Lemma getOr_same (o : gmap string string) (k d : string) :
  o !! k = Some d → getOr o k d = d.
Proof. intros Hk. unfold getOr. rewrite Hk. by case_bool_decide. Qed.

Lemma configData_lookup (t : gmap string Row) (k : string) :
  k ∈ ConfigKeys.values →
  (row_value <$> delete "__proto__" t) !! k = row_value <$> t !! k.
Proof.
  intros Hk. rewrite lookup_fmap, lookup_delete_ne; [done|].
  intros <-. revert Hk. compute_done.
Qed.

(** A struct decodes when all of its fields do, and the start date of the
    result is the one the date field decodes to. *)
Lemma decodeAppConfig_succeeds {Pf : Platform} (o : ConfigObject) :
  Ex.isFailure (Schema.decodeBaseUrl (baseUrl (thetaData o))) = false →
  Ex.isFailure (Schema.decodeMaxConcurrentRequests
                  (maxConcurrentRequests (thetaData o))) = false →
  Ex.isFailure (Schema.decodeStartDate (startDate (processing o))) = false →
  Ex.isFailure (Schema.minLength1 (outputDirectory (processing o))) = false →
  Ex.isFailure (Schema.minLength1 (tempDirectory (processing o))) = false →
  Ex.isFailure (Schema.decodeDatabasePath (path (database o))) = false →
  ∃ c, validateConfiguration o = Success c
       ∧ Schema.decodeStartDate (startDate (processing o))
         = Success (startDate (processing c)).
Proof.
  unfold validateConfiguration, Schema.decodeAppConfig,
    Schema.decodeThetaDataConfig, Schema.decodeProcessingConfig,
    Schema.decodeDatabaseConfig, Schema.property.
  destruct (Schema.decodeBaseUrl _); [done|].
  destruct (Schema.decodeMaxConcurrentRequests _); [done|].
  destruct (Schema.decodeStartDate _); [done|].
  destruct (Schema.minLength1 (outputDirectory _)); [done|].
  destruct (Schema.minLength1 (tempDirectory _)); [done|].
  destruct (Schema.decodeDatabasePath _); [done|].
  intros _ _ _ _ _ _. cbn. eauto.
Qed.

Lemma accepted_baseUrl {Pf : Platform} (v : string) :
  validateByKey ConfigKeys.THETADATA_BASE_URL v = Success tt →
  Ex.isFailure (Schema.decodeBaseUrl v) = false.
Proof.
  unfold validateByKey. rewrite bool_decide_true by done.
  unfold validateThetaDataUrl. by destruct (Schema.decodeBaseUrl v).
Qed.

Lemma accepted_databasePath {Pf : Platform} (v : string) :
  validateByKey ConfigKeys.DATABASE_PATH v = Success tt →
  Ex.isFailure (Schema.decodeDatabasePath v) = false.
Proof.
  unfold validateByKey. rewrite !bool_decide_false by done. cbn [orb].
  rewrite bool_decide_true by done.
  unfold validateDatabasePath. by destruct (Schema.decodeDatabasePath v).
Qed.

Lemma accepted_maxConcurrentRequests {Pf : Platform} (v : string) :
  validateByKey ConfigKeys.THETADATA_MAX_CONCURRENT_REQUESTS v = Success tt →
  Ex.isFailure (Schema.decodeMaxConcurrentRequests (Js.parseInt v)) = false.
Proof.
  unfold validateByKey. rewrite !bool_decide_false by done. cbn [orb].
  rewrite bool_decide_true by done.
  destruct (Js.parseInt v) as [|z]; [done|].
  repeat case_bool_decide; cbn [orb]; try done. intros _.
  unfold Schema.decodeMaxConcurrentRequests, Schema.refine, Js.isSafeInteger.
  rewrite bool_decide_true by lia. cbn [Ex.bind].
  by rewrite bool_decide_true by lia.
Qed.

Lemma nonempty_minLength1 (v : string) :
  v ≠ "" → Ex.isFailure (Schema.minLength1 v) = false.
Proof.
  intros Hv. unfold Schema.minLength1, Schema.refine.
  rewrite bool_decide_true; [done|]. destruct v; [done | cbn; lia].
Qed.

Lemma accepted_values_decode {Pf : Platform} (cd : gmap string string) :
  (∀ k v, k ∈ ConfigKeys.values → cd !! k = Some v →
          validateByKey k v = Success tt) →
  ∃ c, deserializeConfig cd = Success c
       ∧ startDate (processing c)
         = Date_parse (getOr cd ConfigKeys.PROCESSING_START_DATE
                         (startDate (processing DEFAULT_CONFIG))).
Proof.
  intros Hstored.
  assert (Hdec : ∃ c, validateConfiguration (encoded (configObjectOf cd)) = Success c
                      ∧ Schema.decodeStartDate
                          (startDate (processing (encoded (configObjectOf cd))))
                        = Success (startDate (processing c))).
  { apply decodeAppConfig_succeeds;
      unfold encoded, mapStartDate, configObjectOf;
      cbn [thetaData processing database baseUrl maxConcurrentRequests startDate
           outputDirectory tempDirectory path].
    - destruct (getOr_cases cd ConfigKeys.THETADATA_BASE_URL
                  (baseUrl (thetaData DEFAULT_CONFIG))) as [->|(v & Hv & _ & ->)];
        [done|].
      apply accepted_baseUrl, Hstored; [compute_done | done].
    - destruct (getOr_cases cd ConfigKeys.THETADATA_MAX_CONCURRENT_REQUESTS
                  (Js.Number_toString
                     (maxConcurrentRequests (thetaData DEFAULT_CONFIG))))
        as [->|(v & Hv & _ & ->)]; [done|].
      apply accepted_maxConcurrentRequests, Hstored; [compute_done | done].
    - done.
    - destruct (getOr_cases cd ConfigKeys.PROCESSING_OUTPUT_DIRECTORY
                  (outputDirectory (processing DEFAULT_CONFIG)))
        as [->|(v & _ & Hv & ->)]; [done|]. by apply nonempty_minLength1.
    - destruct (getOr_cases cd ConfigKeys.PROCESSING_TEMP_DIRECTORY
                  (tempDirectory (processing DEFAULT_CONFIG)))
        as [->|(v & _ & Hv & ->)]; [done|]. by apply nonempty_minLength1.
    - destruct (getOr_cases cd ConfigKeys.DATABASE_PATH
                  (path (database DEFAULT_CONFIG))) as [->|(v & Hv & _ & ->)];
        [done|].
      apply accepted_databasePath, Hstored; [compute_done | done]. }
  destruct Hdec as (c & Hc & Hdate). exists c.
  unfold deserializeConfig. rewrite Hc. split; [done|].
  cbn in Hdate. by injection Hdate as <-.
Qed.

Lemma accepted_rows_values {Pf : Platform} (t : gmap string Row) :
  (∀ k r, k ∈ ConfigKeys.values → t !! k = Some r →
          validateByKey k (row_value r) = Success tt) →
  ∀ k v, k ∈ ConfigKeys.values →
         (row_value <$> delete "__proto__" t) !! k = Some v →
         validateByKey k v = Success tt.
Proof.
  intros Hok k v Hk Hv. rewrite configData_lookup in Hv by done.
  destruct (t !! k) as [r|] eqn:Hr; [|done].
  injection Hv as <-. by apply Hok.
Qed.

(** A successful validation returns its input with the start date parsed. *)
Lemma validateConfiguration_success {Pf : Platform} (o : AppConfigOf string)
    (c : AppConfig) :
  validateConfiguration (encoded o) = Success c → c = mapStartDate Date_parse o.
Proof.
  destruct o as [[u n] [d out tmp] [p]].
  unfold validateConfiguration, Schema.decodeAppConfig,
    Schema.decodeThetaDataConfig, Schema.decodeProcessingConfig,
    Schema.decodeDatabaseConfig, Schema.property, Schema.decodeBaseUrl,
    Schema.decodeMaxConcurrentRequests, Schema.decodeStartDate,
    Schema.decodeDatabasePath, Schema.minLength1, Schema.refine,
    encoded, mapStartDate.
  cbn [thetaData processing database baseUrl maxConcurrentRequests startDate
       outputDirectory tempDirectory path].
  destruct (Js.test_httpUrl u); [|done]. cbn [Ex.bind Ex.mapError].
  destruct (Js.isSafeInteger n); [|done]. cbn [Ex.bind Ex.mapError].
  destruct (match n with NaN => false | Int z => bool_decide (1 ≤ z ≤ 10) end);
    [|done]. cbn [Ex.bind Ex.mapError].
  destruct (bool_decide (1 ≤ String.length out)%nat); [|done].
  cbn [Ex.bind Ex.mapError].
  destruct (bool_decide (1 ≤ String.length tmp)%nat); [|done].
  cbn [Ex.bind Ex.mapError].
  destruct (bool_decide (1 ≤ String.length p)%nat); [|done].
  cbn [Ex.bind Ex.mapError].
  destruct (Js.test_dbSuffix p); [|done]. cbn [Ex.bind Ex.mapError].
  by intros [= <-].
Qed.

Lemma getOr_storedOr (db : Database) (t : gmap string Row) (k fallback : string) :
  db !! "configuration" = Some t →
  k ∈ ConfigKeys.values →
  getOr (row_value <$> delete "__proto__" t) k fallback = storedOr db k fallback.
Proof.
  intros Ht Hk. unfold getOr, storedOr, storedRow.
  rewrite configData_lookup by done. rewrite Ht. cbn [mbind option_bind].
  by destruct (t !! k).
Qed.

(** X10. Validation on write implies validation on read, and reading
    returns what was written: when every value stored under a known key
    is one that [validateByKey] accepts for that key,
    [getFullConfiguration] succeeds.  On a table with rows the result is
    the stored values laid over the defaults, field by field, the request
    limit read with [parseInt] and the start date with [new Date]; rows
    under other keys do not matter.  On a table without rows (a row under
    the key [__proto__] does not count as one) it is [DEFAULT_CONFIG]
    itself. *)
Theorem accepted_values_read_back {Pf : Platform} (db : Database)
    (t : gmap string Row) :
  db !! "configuration" = Some t →
  (∀ k r, k ∈ ConfigKeys.values → t !! k = Some r →
          validateByKey k (row_value r) = Success tt) →
  getFullConfiguration db
  = (Success (if bool_decide (delete "__proto__" t = ∅)
              then encoded DEFAULT_CONFIG
              else decoded (storedOverDefaults db)),
     db).
Proof.
  intros Ht Hok. rewrite (getFullConfiguration_spec db t Ht).
  destruct (decide (delete "__proto__" t = ∅)) as [Hempty|Hrows].
  { rewrite Hempty, fmap_empty, map_size_empty.
    by rewrite !bool_decide_true by done. }
  rewrite !bool_decide_false
    by (rewrite ?map_size_empty_iff, ?fmap_empty_iff; done).
  destruct (accepted_values_decode _ (accepted_rows_values t Hok)) as (c & Hc & _).
  rewrite Hc. do 3 f_equal.
  unfold deserializeConfig in Hc.
  destruct (validateConfiguration _) as [|c'] eqn:Hvalid; [done|].
  injection Hc as ->. apply validateConfiguration_success in Hvalid as ->.
  unfold configObjectOf, storedOverDefaults, mapStartDate.
  cbn [thetaData processing database baseUrl maxConcurrentRequests startDate
       outputDirectory tempDirectory path].
  rewrite !(getOr_storedOr db t) by (done || compute_done).
  reflexivity.
Qed.

Lemma accepted_values_read_back_witness :
  getFullConfiguration (Pf := Reference.platform) customPathOnlyDb
  = (Success (decoded (mkAppConfig (thetaData DEFAULT_CONFIG)
                (mkProcessing (TimeValue 1704067200000)
                   "./data/parquet" "./data/temp")
                (mkDatabase "./custom.db"))),
     customPathOnlyDb).
Proof.
  rewrite (accepted_values_read_back (Pf := Reference.platform) customPathOnlyDb
             {[ "database.path" := mkRow "./custom.db" "2025-01-01 00:00:00" ]}
             eq_refl).
  - vm_compute. reflexivity.
  - intros k r _ Hr. apply lookup_singleton_Some in Hr as [<- <-].
    vm_compute. reflexivity.
Defined.

Lemma service_needs_table_aux {Pf : Platform} (now : string)
    (configs : list (string * string)) (db : Database) :
  db !! "configuration" = None → configs ≠ [] →
  resetToDefaults now configs db
  = (Failure (ConfigurationPersistenceError "set" (NoSuchTable "configuration")), db).
Proof.
  intros Hnone Hne. destruct configs as [|[k v] configs]; [done|].
  unfold resetToDefaults. rewrite fmap_cons. cbn [Eff.all].
  unfold Eff.bind. by rewrite setConfiguration_spec, Hnone.
Qed.

(** X11. The service never creates its table: on a database without the
    [configuration] table every operation fails and leaves the database
    as it was.  Reading and resetting fail with the persistence error of
    the statement they start with; writing fails with the validation error
    when the value is rejected and with the persistence error otherwise. *)
Theorem service_needs_table {Pf : Platform} (now k v : string) (db : Database) :
  db !! "configuration" = None →
  (∀ e, validateByKey k v = Failure e →
     setConfigurationValue now k v db = (Failure e, db))
  ∧ (validateByKey k v = Success tt →
     setConfigurationValue now k v db
     = (Failure (ConfigurationPersistenceError "set" (NoSuchTable "configuration")), db))
  ∧ getConfigurationValue k db
    = (Failure (ConfigurationPersistenceError "get" (NoSuchTable "configuration")), db)
  ∧ getFullConfiguration db
    = (Failure (ConfigurationPersistenceError "getAll" (NoSuchTable "configuration")), db)
  ∧ validateFullConfiguration db
    = (Failure (ConfigurationPersistenceError "getAll" (NoSuchTable "configuration")), db)
  ∧ resetConfiguration now db
    = (Failure (ConfigurationPersistenceError "set" (NoSuchTable "configuration")), db).
Proof.
  intros Hnone.
  assert (Hset : validateByKey k v = Success tt →
            setConfigurationValue now k v db
            = (Failure (ConfigurationPersistenceError "set"
                          (NoSuchTable "configuration")), db)).
  { intros Hok. rewrite setConfigurationValue_accepted by done.
    by rewrite setConfiguration_spec, Hnone. }
  split; [intros e He; by apply setConfigurationValue_rejected|].
  split; [exact Hset|].
  split.
  { unfold getConfigurationValue. by rewrite getConfiguration_spec, Hnone. }
  assert (Hall : getAllConfiguration db
                 = (Failure (ConfigurationPersistenceError "getAll"
                               (NoSuchTable "configuration")), db)).
  { unfold getAllConfiguration, Eff.mapError, Sql.query. by rewrite Hnone. }
  split.
  { unfold getFullConfiguration, Eff.bind. by rewrite Hall. }
  split.
  { unfold validateFullConfiguration, Eff.bind. by rewrite Hall. }
  unfold resetConfiguration. by apply service_needs_table_aux.
Qed.

Lemma service_needs_table_witness :
  getFullConfiguration (Pf := Reference.platform) freshDb
  = (Failure (ConfigurationPersistenceError "getAll" (NoSuchTable "configuration")),
     freshDb)
  ∧ setConfigurationValue (Pf := Reference.platform) sampleNow
      "database.path" "./custom.db" freshDb
    = (Failure (ConfigurationPersistenceError "set" (NoSuchTable "configuration")),
       freshDb).
Proof.
  pose proof (service_needs_table (Pf := Reference.platform) sampleNow
                "database.path" "./custom.db" freshDb eq_refl)
    as (_ & Hset & _ & Hget & _).
  split; [exact Hget|]. apply Hset. reflexivity.
Defined.

(** X12. [validateFullConfiguration] succeeds on no database at all: what
    it read and decoded is handed to the schema a second time, which
    expects the start date as a string and finds a [Date]. *)
Theorem validateFull_never_succeeds {Pf : Platform} (db : Database) :
  ∃ e, validateFullConfiguration db = (Failure e, db).
Proof.
  destruct (db !! "configuration") as [t|] eqn:Ht.
  - destruct (validateFull_always_fails db t Ht) as (k & v & reason & Hrun).
    rewrite Hrun. eauto.
  - unfold validateFullConfiguration, Eff.bind, getAllConfiguration,
      Eff.mapError, Sql.query. rewrite Ht. eauto.
Qed.

Lemma deserializeConfig_ext {Pf : Platform} (cd1 cd2 : gmap string string) :
  (∀ k, k ∈ ConfigKeys.values → cd1 !! k = cd2 !! k) →
  deserializeConfig cd1 = deserializeConfig cd2.
Proof.
  intros Hsame.
  assert (Hobj : configObjectOf cd1 = configObjectOf cd2).
  { unfold configObjectOf, getOr.
    rewrite !(Hsame ConfigKeys.THETADATA_BASE_URL),
      !(Hsame ConfigKeys.THETADATA_MAX_CONCURRENT_REQUESTS),
      !(Hsame ConfigKeys.PROCESSING_START_DATE),
      !(Hsame ConfigKeys.PROCESSING_OUTPUT_DIRECTORY),
      !(Hsame ConfigKeys.PROCESSING_TEMP_DIRECTORY),
      !(Hsame ConfigKeys.DATABASE_PATH) by compute_done.
    reflexivity. }
  unfold deserializeConfig. by rewrite Hobj.
Qed.

Lemma deserializeConfig_defaults {Pf : Platform} (cd : gmap string string) :
  (∀ k v, (k, v) ∈ defaultFlat → cd !! k = Some v) →
  deserializeConfig cd = Success defaultConfigToAppConfig.
Proof.
  intros Hdef.
  assert (Hobj : configObjectOf cd = DEFAULT_CONFIG).
  { unfold configObjectOf.
    rewrite (getOr_same cd ConfigKeys.THETADATA_BASE_URL)
      by (apply Hdef; compute_done).
    rewrite (getOr_same cd ConfigKeys.THETADATA_MAX_CONCURRENT_REQUESTS)
      by (apply Hdef; compute_done).
    rewrite (getOr_same cd ConfigKeys.PROCESSING_START_DATE)
      by (apply Hdef; compute_done).
    rewrite (getOr_same cd ConfigKeys.PROCESSING_OUTPUT_DIRECTORY)
      by (apply Hdef; compute_done).
    rewrite (getOr_same cd ConfigKeys.PROCESSING_TEMP_DIRECTORY)
      by (apply Hdef; compute_done).
    rewrite (getOr_same cd ConfigKeys.DATABASE_PATH)
      by (apply Hdef; compute_done).
    reflexivity. }
  unfold deserializeConfig. rewrite Hobj, validateConfiguration_default.
  reflexivity.
Qed.

Lemma serialize_defaults {Pf : Platform} :
  serializeConfig (encoded DEFAULT_CONFIG) = defaultFlat.
Proof. reflexivity. Qed.

Lemma resetConfiguration_spec {Pf : Platform} (now : string) (db : Database)
    (t : gmap string Row) :
  db !! "configuration" = Some t →
  resetConfiguration now db
  = (Success tt,
     <["configuration" :=
         foldl (λ acc kv, <[kv.1 := mkRow kv.2 now]> acc) t defaultFlat]> db).
Proof.
  intros Ht. unfold resetConfiguration, resetToDefaults. rewrite serialize_defaults.
  unfold Eff.bind. by rewrite (setAll_spec now defaultFlat db t Ht).
Qed.

Lemma defaultFlat_NoDup : NoDup defaultFlat.*1.
Proof. compute_done. Qed.

Lemma reset_rows (now : string) (t : gmap string Row) :
  (∀ k v, (k, v) ∈ defaultFlat →
     foldl (λ acc kv, <[kv.1 := mkRow kv.2 now]> acc) t defaultFlat !! k
     = Some (mkRow v now))
  ∧ (∀ k, k ∉ ConfigKeys.values →
     foldl (λ acc kv, <[kv.1 := mkRow kv.2 now]> acc) t defaultFlat !! k = t !! k).
Proof.
  split.
  - intros k v Hin. rewrite foldl_insert_lookup by apply defaultFlat_NoDup.
    by rewrite (elem_of_list_to_map_1 defaultFlat k v)
      by (apply defaultFlat_NoDup || done).
  - intros k Hk. rewrite foldl_insert_lookup by apply defaultFlat_NoDup.
    rewrite (not_elem_of_list_to_map_1 defaultFlat k); [done|exact Hk].
Qed.

Lemma getFull_after_reset {Pf : Platform} (now : string) (db : Database)
    (t : gmap string Row) :
  getFullConfiguration
    (<["configuration" :=
         foldl (λ acc kv, <[kv.1 := mkRow kv.2 now]> acc) t defaultFlat]> db)
  = (Success (decoded defaultConfigToAppConfig),
     <["configuration" :=
         foldl (λ acc kv, <[kv.1 := mkRow kv.2 now]> acc) t defaultFlat]> db).
Proof.
  set (t' := foldl (λ acc kv, <[kv.1 := mkRow kv.2 now]> acc) t defaultFlat).
  rewrite (getFullConfiguration_spec _ t') by apply lookup_insert_eq.
  assert (Hcd : ∀ k v, (k, v) ∈ defaultFlat →
                       (row_value <$> delete "__proto__" t') !! k = Some v).
  { intros k v Hin. rewrite configData_lookup.
    - subst t'. by rewrite (proj1 (reset_rows now t) k v Hin).
    - apply (list_elem_of_fmap_2 fst) in Hin. exact Hin. }
  rewrite bool_decide_false.
  - by rewrite (deserializeConfig_defaults _ Hcd).
  - intros Hsize. apply map_size_empty_iff in Hsize.
    specialize (Hcd "database.path" "./data/spx-pipeline.db").
    rewrite Hsize, lookup_empty in Hcd. discriminate Hcd. compute_done.
Qed.



(** X14. On a table that is not empty, [getFullConfiguration] reads the
    values of the six known keys and nothing else: two databases whose
    tables agree on these values give the same result, whatever other
    rows and whatever timestamps they hold. *)
Theorem getFull_reads_known_keys_only {Pf : Platform} (db1 db2 : Database)
    (t1 t2 : gmap string Row) :
  db1 !! "configuration" = Some t1 →
  db2 !! "configuration" = Some t2 →
  delete "__proto__" t1 ≠ ∅ →
  delete "__proto__" t2 ≠ ∅ →
  (∀ k, k ∈ ConfigKeys.values → row_value <$> t1 !! k = row_value <$> t2 !! k) →
  (getFullConfiguration db1).1 = (getFullConfiguration db2).1.
Proof.
  intros H1 H2 Hne1 Hne2 Hsame.
  rewrite (getFullConfiguration_spec db1 t1 H1), (getFullConfiguration_spec db2 t2 H2).
  rewrite !bool_decide_false
    by (rewrite map_size_empty_iff, fmap_empty_iff; done).
  rewrite (deserializeConfig_ext (row_value <$> delete "__proto__" t1)
             (row_value <$> delete "__proto__" t2)).
  - by destruct (deserializeConfig _).
  - intros k Hk. rewrite !configData_lookup by done. by apply Hsame.
Qed.

Lemma getFull_reads_known_keys_only_witness :
  (getFullConfiguration (Pf := Reference.platform) customPathDb).1
  = (getFullConfiguration (Pf := Reference.platform) customPathOnlyDb).1.
Proof.
  apply (getFull_reads_known_keys_only (Pf := Reference.platform)
           customPathDb customPathOnlyDb
           (<["note" := mkRow "kept by hand" sampleNow]>
              {[ "database.path" := mkRow "./custom.db" sampleNow ]})
           {[ "database.path" := mkRow "./custom.db" "2025-01-01 00:00:00" ]}
           eq_refl eq_refl).
  - intros Hempty.
    apply (f_equal (λ m : gmap string Row, m !! "database.path")) in Hempty.
    revert Hempty. compute_done.
  - intros Hempty.
    apply (f_equal (λ m : gmap string Row, m !! "database.path")) in Hempty.
    revert Hempty. compute_done.
  - intros k Hk.
    repeat (apply elem_of_cons in Hk as [->|Hk]; [compute_done|]).
    by apply not_elem_of_nil in Hk.
Defined.

Lemma getFull_unparseable_date {Pf : Platform} (now s : string) (db : Database)
    (t : gmap string Row) :
  (∀ k r, k ∈ ConfigKeys.values → t !! k = Some r →
          validateByKey k (row_value r) = Success tt) →
  s ≠ "" →
  Date_parse s = InvalidDate →
  ∃ c,
    getFullConfiguration
      (<["configuration" :=
           <[ConfigKeys.PROCESSING_START_DATE := mkRow s now]> t]> db)
    = (Success (decoded c),
       <["configuration" :=
           <[ConfigKeys.PROCESSING_START_DATE := mkRow s now]> t]> db)
    ∧ startDate (processing c) = InvalidDate.
Proof.
  intros Hok Hs Hparse.
  set (t' := <[ConfigKeys.PROCESSING_START_DATE := mkRow s now]> t).
  assert (Hok' : ∀ k r, k ∈ ConfigKeys.values → t' !! k = Some r →
                        validateByKey k (row_value r) = Success tt).
  { intros k r Hk Hr. subst t'.
    destruct (decide (k = ConfigKeys.PROCESSING_START_DATE)) as [->|Hne].
    - apply validateByKey_startDate.
    - rewrite lookup_insert_ne in Hr by done. by apply Hok. }
  assert (Hcd : (row_value <$> delete "__proto__" t')
                  !! ConfigKeys.PROCESSING_START_DATE = Some s).
  { rewrite configData_lookup by compute_done. subst t'.
    by rewrite lookup_insert_eq. }
  destruct (accepted_values_decode _ (accepted_rows_values t' Hok'))
    as (c & Hc & Hdate).
  exists c. split.
  - rewrite (getFullConfiguration_spec _ t') by apply lookup_insert_eq.
    rewrite bool_decide_false.
    + by rewrite Hc.
    + intros Hsize. apply map_size_empty_iff in Hsize.
      by rewrite Hsize, lookup_empty in Hcd.
  - rewrite Hdate. unfold getOr. rewrite Hcd.
    by rewrite bool_decide_false by done.
Qed.

(** X15. A start date that does not parse is stopped nowhere: the service
    stores it, [getFullConfiguration] then returns a configuration whose
    start date is the invalid date, and the cross-field rules never fail
    on the start date of such a configuration, since both comparisons
    with an invalid date are false. *)
Theorem unparseable_date_accepted {Pf : Platform} (now s : string) (db : Database)
    (t : gmap string Row) :
  db !! "configuration" = Some t →
  (∀ k r, k ∈ ConfigKeys.values → t !! k = Some r →
          validateByKey k (row_value r) = Success tt) →
  s ≠ "" →
  Date_parse s = InvalidDate →
  ∃ db' c,
    setConfigurationValue now ConfigKeys.PROCESSING_START_DATE s db = (Success tt, db')
    ∧ getFullConfiguration db' = (Success (decoded c), db')
    ∧ startDate (processing c) = InvalidDate
    ∧ ∀ env v reason,
        validateCrossFieldRules env c
        ≠ Failure (ConfigurationValidationError "processing.startDate" v reason).
Proof.
  intros Ht Hok Hs Hparse.
  rewrite setConfigurationValue_accepted by apply validateByKey_startDate.
  rewrite setConfiguration_spec, Ht.
  destruct (getFull_unparseable_date now s db t Hok Hs Hparse)
    as (c & Hget & Hinvalid).
  eexists _, c. split; [reflexivity|].
  split; [exact Hget|].
  split; [exact Hinvalid|].
  intros env v reason. unfold validateCrossFieldRules.
  case_bool_decide; [discriminate|].
  destruct (Js.startsWith _ _); [discriminate|].
  rewrite Hinvalid. cbn [Date_gt]. unfold Date_lt.
  destruct (Date_parse "2020-01-01"); cbn [Date_gt]; discriminate.
Qed.

Lemma unparseable_date_accepted_witness :
  ∃ db' c,
    setConfigurationValue (Pf := Reference.platform) sampleNow
      "processing.startDate" "not-a-date" emptyConfigDb = (Success tt, db')
    ∧ getFullConfiguration (Pf := Reference.platform) db' = (Success (decoded c), db')
    ∧ startDate (processing c) = InvalidDate.
Proof.
  destruct (unparseable_date_accepted (Pf := Reference.platform) sampleNow
              "not-a-date" emptyConfigDb ∅ eq_refl)
    as (db' & c & Hset & Hget & Hdate & _).
  - intros k r _ Hr. by rewrite lookup_empty in Hr.
  - discriminate.
  - reflexivity.
  - exists db', c. by repeat split.
Defined.

(** ** Business days *)

(** X16. [validateBusinessDay] judges a date by the weekday of the local
    calendar.  A date-only string is read as midnight UTC, so in a zone
    west of UTC the weekday tested is that of the day before: there a
    Monday is rejected as a Sunday and a Saturday is accepted as a Friday.
    At UTC and east of it the weekday is that of the date written. *)
Theorem businessDay_uses_local_weekday {Pf : Platform} (env : Env) (s : string)
    (d : Z) :
  Date_parse s = TimeValue (d * Js.msPerDay) →
  - Js.msPerDay ≤ tzOffset env < Js.msPerDay →
  validateBusinessDay env s
  = let judged := if bool_decide (tzOffset env < 0) then d - 1 else d in
    if bool_decide ((judged + 4) `mod` 7 = 0 ∨ (judged + 4) `mod` 7 = 6)
    then Failure (ConfigurationValidationError "processing.startDate" s
                    "Start date must be a business day (Monday-Friday)")
    else Success (TimeValue (d * Js.msPerDay)).
Proof.
  intros Hparse Hzone. unfold validateBusinessDay. rewrite Hparse.
  unfold isBusinessDay, Date_getDay, Number_strictNe. cbv zeta.
  assert (Hdiv : (d * Js.msPerDay + tzOffset env) `div` Js.msPerDay
                 = if bool_decide (tzOffset env < 0) then d - 1 else d).
  { unfold Js.msPerDay in *. case_bool_decide.
    - symmetry. apply (Z.div_unique _ _ _ (tzOffset env + 86400000)); lia.
    - symmetry. apply (Z.div_unique _ _ _ (tzOffset env)); lia. }
  rewrite Hdiv.
  set (w := ((if bool_decide (tzOffset env < 0) then d - 1 else d) + 4) `mod` 7).
  destruct (decide (w = 0)) as [H0|H0], (decide (w = 6)) as [H6|H6].
  - lia.
  - rewrite (bool_decide_true (w = 0)), (bool_decide_true (w = 0 ∨ w = 6))
      by tauto. reflexivity.
  - rewrite (bool_decide_false (w = 0)), (bool_decide_true (w = 6)),
      (bool_decide_true (w = 0 ∨ w = 6)) by tauto. reflexivity.
  - rewrite (bool_decide_false (w = 0)), (bool_decide_false (w = 6)),
      (bool_decide_false (w = 0 ∨ w = 6)) by tauto. reflexivity.
Qed.

Lemma businessDay_uses_local_weekday_witness :
  validateBusinessDay (Pf := Reference.platform) newYorkEnv "2024-01-01"
  = Failure (ConfigurationValidationError "processing.startDate" "2024-01-01"
               "Start date must be a business day (Monday-Friday)")
  ∧ validateBusinessDay (Pf := Reference.platform) newYorkEnv "2024-01-06"
    = Success (TimeValue 1704499200000)
  ∧ validateBusinessDay (Pf := Reference.platform) tokyoEnv "2024-01-01"
    = Success (TimeValue 1704067200000).
Proof.
  split; [|split].
  - rewrite (businessDay_uses_local_weekday (Pf := Reference.platform)
               newYorkEnv "2024-01-01" 19723);
      [reflexivity | reflexivity | unfold Js.msPerDay; cbn; lia].
  - rewrite (businessDay_uses_local_weekday (Pf := Reference.platform)
               newYorkEnv "2024-01-06" 19728);
      [reflexivity | reflexivity | unfold Js.msPerDay; cbn; lia].
  - rewrite (businessDay_uses_local_weekday (Pf := Reference.platform)
               tokyoEnv "2024-01-01" 19723);
      [reflexivity | reflexivity | unfold Js.msPerDay; cbn; lia].
Defined.

(** ** The [config] commands *)

Lemma includes_spec (k : string) :
  includes ConfigKeys.values k = bool_decide (k ∈ ConfigKeys.values).
Proof. reflexivity. Qed.

Lemma mapError_schema {Pf : Platform} {A} (k v : string) (m : Exit ParseError A)
    (e : Error) :
  Ex.mapError (λ error, fromSchemaError k v error) (Ex.asVoid m) = Failure e →
  isValidationError e = true.
Proof. destruct m; [|done]. by intros [= <-]. Qed.

(** What [validateByKey] fails with is a plain tagged object. *)
Lemma validateByKey_error {Pf : Platform} (k v : string) (e : Error) :
  validateByKey k v = Failure e → String_of_error e = "[object Object]".
Proof.
  intros Hfail. assert (Hv : isValidationError e = true).
  { revert Hfail. unfold validateByKey.
    destruct (bool_decide (k = ConfigKeys.THETADATA_BASE_URL));
      [apply mapError_schema|].
    destruct (bool_decide (k = ConfigKeys.PROCESSING_START_DATE));
      [apply mapError_schema|].
    destruct (_ || _); [apply mapError_schema|].
    destruct (bool_decide (k = ConfigKeys.DATABASE_PATH));
      [apply mapError_schema|].
    destruct (bool_decide _).
    - cbv zeta. destruct (Js.parseInt v); [by intros [= <-]|].
      destruct (_ || _); [by intros [= <-] | done].
    - by intros [= <-]. }
  by destruct e.
Qed.

Lemma configSetCommand_spec {Pf : Platform} (now k v : string) (db : Database) :
  configSetCommand now k v db
  = if bool_decide (k ∈ ConfigKeys.values) then
      match validateByKey k v, db !! "configuration" with
      | Success _, Some t =>
          mkRun Completed ["✓ Set " +:+ k +:+ " = " +:+ v]
            (<["configuration" := <[k := mkRow v now]> t]> db)
      | _, _ => mkRun (Failed (JsError "[object Object]")) [] db
      end
    else mkRun (Failed (JsError (invalidKeyMessage k))) [] db.
Proof.
  unfold configSetCommand. rewrite includes_spec.
  case_bool_decide as Hk; [|done]. cbn [negb].
  unfold asJsError, Eff.mapError.
  destruct (validateByKey k v) as [e|[]] eqn:Hv.
  - rewrite (setConfigurationValue_rejected now k v db e Hv).
    by rewrite (validateByKey_error k v e Hv).
  - rewrite setConfigurationValue_accepted by done.
    rewrite setConfiguration_spec. by destruct (db !! "configuration").
Qed.

(** X17. [config set] either completes, having written exactly the row it
    names, or fails and leaves the database as it was.  A key outside
    [ConfigKeys] is answered with the list of valid keys; every failure
    of the service, whether the value was rejected or the table is
    missing, reaches the user as the same message, [[object Object]]. *)
Theorem configSet_outcomes {Pf : Platform} (now k v : string) (db : Database) :
  (k ∉ ConfigKeys.values →
   configSetCommand now k v db
   = mkRun (Failed (JsError (invalidKeyMessage k))) [] db)
  ∧ (k ∈ ConfigKeys.values →
     validateByKey k v ≠ Success tt ∨ db !! "configuration" = None →
     configSetCommand now k v db
     = mkRun (Failed (JsError "[object Object]")) [] db)
  ∧ (∀ t, k ∈ ConfigKeys.values →
     validateByKey k v = Success tt →
     db !! "configuration" = Some t →
     configSetCommand now k v db
     = mkRun Completed ["✓ Set " +:+ k +:+ " = " +:+ v]
         (<["configuration" := <[k := mkRow v now]> t]> db)).
Proof.
  rewrite configSetCommand_spec. split; [|split].
  - intros Hk. by rewrite bool_decide_false.
  - intros Hk Hfail. rewrite bool_decide_true by done.
    destruct (validateByKey k v) as [e|[]]; [done|].
    destruct Hfail as [Hfail|Hnone]; [done|]. by rewrite Hnone.
  - intros t Hk Hv Ht. rewrite bool_decide_true by done. by rewrite Hv, Ht.
Qed.

Lemma configSet_outcomes_witness :
  configSetCommand (Pf := Reference.platform) sampleNow
    "thetadata.maxConcurrentRequests" "11" emptyConfigDb
  = mkRun (Failed (JsError "[object Object]")) [] emptyConfigDb
  ∧ configSetCommand (Pf := Reference.platform) sampleNow
      "thetadata.maxConcurrentRequests" "8" emptyConfigDb
    = mkRun Completed ["✓ Set thetadata.maxConcurrentRequests = 8"]
        (<["configuration" :=
             <["thetadata.maxConcurrentRequests" := mkRow "8" sampleNow]> ∅]>
           emptyConfigDb)
  ∧ configSetCommand (Pf := Reference.platform) sampleNow "theta.url" "x" emptyConfigDb
    = mkRun (Failed (JsError (invalidKeyMessage "theta.url"))) [] emptyConfigDb.
Proof.
  split; [|split].
  - apply (proj1 (proj2 (configSet_outcomes (Pf := Reference.platform) sampleNow
                           "thetadata.maxConcurrentRequests" "11" emptyConfigDb))).
    + compute_done.
    + left. vm_compute. discriminate.
  - apply (proj2 (proj2 (configSet_outcomes (Pf := Reference.platform) sampleNow
                           "thetadata.maxConcurrentRequests" "8" emptyConfigDb))).
    + compute_done.
    + vm_compute. reflexivity.
    + reflexivity.
  - apply (proj1 (configSet_outcomes (Pf := Reference.platform) sampleNow
                    "theta.url" "x" emptyConfigDb)).
    compute_done.
Defined.

(** X18. What [config set] has written, [config get] of the same key
    prints back, in the form [key = value]. *)
Theorem configSet_then_get {Pf : Platform} (now k v : string) (db : Database) :
  ending (configSetCommand now k v db) = Completed →
  configGetCommand (Some k) (finalDb (configSetCommand now k v db))
  = mkRun Completed [k +:+ " = " +:+ v] (finalDb (configSetCommand now k v db)).
Proof.
  rewrite configSetCommand_spec.
  case_bool_decide as Hk; [|done].
  destruct (validateByKey k v) as [e|[]]; [done|].
  destruct (db !! "configuration") as [t|]; [|done].
  intros _. cbn [finalDb]. unfold configGetCommand. rewrite includes_spec.
  rewrite bool_decide_true by done. cbn [negb].
  unfold asJsError, Eff.mapError, getConfigurationValue.
  rewrite getConfiguration_spec, lookup_insert_eq, lookup_insert_eq.
  reflexivity.
Qed.

Lemma configSet_then_get_witness :
  configGetCommand (Pf := Reference.platform) (Some "database.path")
    (finalDb (configSetCommand (Pf := Reference.platform) sampleNow
                "database.path" "./custom.db" emptyConfigDb))
  = mkRun Completed ["database.path = ./custom.db"]
      (finalDb (configSetCommand (Pf := Reference.platform) sampleNow
                  "database.path" "./custom.db" emptyConfigDb)).
Proof.
  apply (configSet_then_get (Pf := Reference.platform) sampleNow
           "database.path" "./custom.db" emptyConfigDb).
  vm_compute. reflexivity.
Defined.

Lemma getFull_error {Pf : Platform} (db : Database) (e : Error) :
  (getFullConfiguration db).1 = Failure e → String_of_error e = "[object Object]".
Proof.
  destruct (db !! "configuration") as [t|] eqn:Ht.
  - rewrite (getFullConfiguration_spec db t Ht).
    case_bool_decide; [done|].
    unfold deserializeConfig, fromSchemaError.
    destruct (validateConfiguration _); cbn; [|done]. by intros [= <-].
  - unfold getFullConfiguration, Eff.bind, getAllConfiguration, Eff.mapError,
      Sql.query. rewrite Ht. cbn. by intros [= <-].
Qed.

(** X19. On a database whose [configuration] table is missing or empty,
    [database init] succeeds and [config get] without a key then ends in
    a [TypeError]: the service returns [DEFAULT_CONFIG], whose start date
    is a string, and the command calls [toISOString] on it. *)
Theorem configGet_after_init_dies {Pf : Platform} (db : Database) :
  (∀ t, db !! "configuration" = Some t → t = ∅) →
  ∃ db',
    databaseInitCommand db = (Success tt, db')
    ∧ db' = <["configuration" := ∅]> db
    ∧ configGetCommand None db' = mkRun (Died TypeError) [] db'.
Proof.
  intros Hempty.
  assert (Hinit : initializeTablesIfNeeded db
                  = (Success (mkInitResult
                                (match db !! "configuration" with
                                 | Some _ => []
                                 | None => ["configuration"]
                                 end)
                                []),
                     <["configuration" := ∅]> db)).
  { rewrite safe_init_cases. destruct (db !! "configuration") as [t|] eqn:Ht.
    - rewrite (Hempty t eq_refl) in *.
      rewrite bool_decide_false by (rewrite map_size_empty; lia).
      by rewrite insert_id.
    - done. }
  exists (<["configuration" := ∅]> db).
  split.
  { unfold databaseInitCommand, Eff.bind, Eff.mapError. by rewrite Hinit. }
  split; [done|].
  unfold configGetCommand, asJsError, Eff.mapError.
  by rewrite getFull_empty by apply lookup_insert_eq.
Qed.

Lemma configGet_after_init_dies_witness :
  ∃ db',
    databaseInitCommand freshDb = (Success tt, db')
    ∧ configGetCommand (Pf := Reference.platform) None db'
      = mkRun (Died TypeError) [] db'.
Proof.
  destruct (configGet_after_init_dies (Pf := Reference.platform) freshDb)
    as (db' & Hinit & _ & Hget).
  - intros t Ht. unfold freshDb in Ht. by rewrite lookup_empty in Ht.
  - by exists db'.
Defined.

(** X20. After [config set processing.startDate] with a value that does
    not parse as a date, which completes, [config get] without a key ends
    in a [RangeError]: [toISOString] throws on the invalid date. *)
Theorem configGet_dies_on_unparseable_date {Pf : Platform} (now s : string)
    (db : Database) (t : gmap string Row) :
  db !! "configuration" = Some t →
  (∀ k r, k ∈ ConfigKeys.values → t !! k = Some r →
          validateByKey k (row_value r) = Success tt) →
  s ≠ "" →
  Date_parse s = InvalidDate →
  ending (configSetCommand now "processing.startDate" s db) = Completed
  ∧ configGetCommand None
      (finalDb (configSetCommand now "processing.startDate" s db))
    = mkRun (Died RangeError) []
        (finalDb (configSetCommand now "processing.startDate" s db)).
Proof.
  intros Ht Hok Hs Hparse. rewrite configSetCommand_spec.
  rewrite bool_decide_true by compute_done.
  rewrite (validateByKey_startDate s), Ht. cbn [ending finalDb].
  split; [done|].
  destruct (getFull_unparseable_date now s db t Hok Hs Hparse)
    as (c & Hget & Hinvalid).
  unfold configGetCommand, asJsError, Eff.mapError.
  unfold ConfigKeys.PROCESSING_START_DATE in Hget. rewrite Hget.
  unfold formatFullConfiguration, decoded, mapStartDate.
  cbn [processing startDate]. by rewrite Hinvalid.
Qed.

Lemma configGet_dies_on_unparseable_date_witness :
  configGetCommand (Pf := Reference.platform) None
    (finalDb (configSetCommand (Pf := Reference.platform) sampleNow
                "processing.startDate" "not-a-date" emptyConfigDb))
  = mkRun (Died RangeError) []
      (finalDb (configSetCommand (Pf := Reference.platform) sampleNow
                  "processing.startDate" "not-a-date" emptyConfigDb)).
Proof.
  apply (configGet_dies_on_unparseable_date (Pf := Reference.platform) sampleNow
           "not-a-date" emptyConfigDb ∅ eq_refl).
  - intros k r _ Hr. by rewrite lookup_empty in Hr.
  - discriminate.
  - reflexivity.
Defined.

(** X21. [config validate] never reports a valid configuration: on every
    database and with every combination of its flags it fails with the
    message [[object Object]] before it has printed anything, and the
    enhanced validation is never reached. *)
Theorem configValidate_never_passes {Pf : Platform}
    (comprehensive : AppConfig → ValidationOptions
                     → list string * (Defect + Exit Error AppConfig))
    (strict autoCreateDirs : bool) (db : Database) :
  configValidateCommand comprehensive strict autoCreateDirs db
  = mkRun (Failed (JsError "[object Object]")) [] db.
Proof.
  unfold configValidateCommand, asJsError, Eff.mapError.
  destruct (db !! "configuration") as [t|] eqn:Ht.
  - destruct (validateFull_always_fails db t Ht) as (k & v & reason & ->).
    reflexivity.
  - unfold validateFullConfiguration, Eff.bind, getAllConfiguration,
      Eff.mapError, Sql.query. rewrite Ht. reflexivity.
Qed.

(** X22. [config get] with a key prints the stored text as it is and knows
    no defaults: for a known key without a row it fails with
    [[object Object]], although [getFullConfiguration] would fill in the
    default for the same key.  Either way the database is as it was. *)
Theorem configGet_key_has_no_default {Pf : Platform} (k : string) (db : Database) :
  k ∈ ConfigKeys.values →
  configGetCommand (Some k) db
  = match storedRow db k with
    | Some r => mkRun Completed [k +:+ " = " +:+ row_value r] db
    | None => mkRun (Failed (JsError "[object Object]")) [] db
    end.
Proof.
  intros Hk. unfold configGetCommand. rewrite includes_spec.
  rewrite bool_decide_true by done. cbn [negb].
  unfold asJsError, Eff.mapError, getConfigurationValue, storedRow.
  rewrite getConfiguration_spec.
  destruct (db !! "configuration") as [t|]; [|done].
  cbn [mbind option_bind]. by destruct (t !! k).
Qed.

Lemma configGet_key_has_no_default_witness :
  configGetCommand (Pf := Reference.platform) (Some "thetadata.baseUrl") customPathDb
  = mkRun (Failed (JsError "[object Object]")) [] customPathDb
  ∧ ∃ c, getFullConfiguration (Pf := Reference.platform) customPathDb
         = (Success c, customPathDb)
         ∧ baseUrl (thetaData c) = "http://localhost:25510".
Proof.
  split.
  - rewrite (configGet_key_has_no_default (Pf := Reference.platform)
               "thetadata.baseUrl" customPathDb); [reflexivity | compute_done].
  - eexists. split; [vm_compute; reflexivity | reflexivity].
Defined.

(** X23. [config reset] and a following [config get] print the same
    configuration, provided the platform parses the default start date:
    reset prints the defaults it was given, and get prints what it reads
    back from the table. *)
Theorem configReset_then_get {Pf : Platform} (now : string) (db : Database)
    (t : gmap string Row) (ms : Z) :
  db !! "configuration" = Some t →
  Date_parse "2024-01-01" = TimeValue ms →
  ∃ db' text,
    configResetCommand now db
    = mkRun Completed ["✓ Configuration reset to defaults"; text] db'
    ∧ configGetCommand None db' = mkRun Completed [text] db'.
Proof.
  intros Ht Hdate.
  assert (Htext : ∃ text, formatFullConfiguration (decoded defaultConfigToAppConfig)
                          = inr text).
  { unfold formatFullConfiguration, decoded, mapStartDate, defaultConfigToAppConfig.
    cbn [processing startDate DEFAULT_CONFIG]. rewrite Hdate. cbn [isoDatePart].
    eauto. }
  destruct Htext as [text Htext].
  eexists _, text. split.
  - unfold configResetCommand, asJsError, Eff.mapError.
    rewrite (resetConfiguration_spec now db t Ht). by rewrite Htext.
  - unfold configGetCommand, asJsError, Eff.mapError.
    rewrite getFull_after_reset. by rewrite Htext.
Qed.

Lemma configReset_then_get_witness :
  ∃ db' text,
    configResetCommand (Pf := Reference.platform) sampleNow textPathDb
    = mkRun Completed ["✓ Configuration reset to defaults"; text] db'
    ∧ configGetCommand (Pf := Reference.platform) None db'
      = mkRun Completed [text] db'.
Proof.
  apply (configReset_then_get (Pf := Reference.platform) sampleNow textPathDb
           {[ "database.path" := mkRow "./database.txt" sampleNow ]}
           1704067200000 eq_refl).
  reflexivity.
Defined.

(** ** [database status] *)

Lemma databaseStatusCommand_spec (database : string) (db : Database) :
  databaseStatusCommand database db
  = mkRun Completed
      [ "📊 Database Status: " +:+ database +:+ newline;
        "Tables:";
        match db !! "configuration" with
        | Some t =>
            "  ✓ configuration ("
            +:+ Js.Number_toString (Int (Z.of_nat (size t))) +:+ " rows)"
        | None => "  ✗ configuration"
        end;
        newline +:+ "Summary: "
        +:+ match db !! "configuration" with Some _ => "1" | None => "0" end
        +:+ "/1 tables exist, "
        +:+ Js.Number_toString
              (Int (Z.of_nat (match db !! "configuration" with
                              | Some t => size t
                              | None => 0
                              end)))
        +:+ " total rows" ]
      db.
Proof.
  unfold databaseStatusCommand, asJsError, Eff.mapError.
  rewrite getDatabaseStatus_spec. unfold tables, statusOf.
  rewrite !fmap_cons, fmap_nil.
  destruct (db !! "configuration") as [t|]; reflexivity.
Qed.

(** X24. [database status] after [database init]: whatever the database
    held, init succeeds and status then completes without changing the
    database, lists the [configuration] table as existing with as many
    rows as it held before (none if it was missing), and sums up one of
    one tables. *)
Theorem status_after_init (database : string) (db : Database) :
  ∃ db',
    databaseInitCommand db = (Success tt, db')
    ∧ databaseStatusCommand database db'
      = mkRun Completed
          [ "📊 Database Status: " +:+ database +:+ newline;
            "Tables:";
            "  ✓ configuration ("
            +:+ Js.Number_toString
                  (Int (Z.of_nat (size (default ∅ (db !! "configuration")))))
            +:+ " rows)";
            newline +:+ "Summary: 1/1 tables exist, "
            +:+ Js.Number_toString
                  (Int (Z.of_nat (size (default ∅ (db !! "configuration")))))
            +:+ " total rows" ]
          db'.
Proof.
  assert (Hinit : ∃ r db',
            initializeTablesIfNeeded db = (Success r, db')
            ∧ db' !! "configuration" = Some (default ∅ (db !! "configuration"))).
  { rewrite safe_init_cases. destruct (db !! "configuration") as [t|] eqn:Ht.
    - case_bool_decide; eexists _, _; (split; [reflexivity|]); by rewrite Ht.
    - eexists _, _. split; [reflexivity|]. by rewrite lookup_insert_eq. }
  destruct Hinit as (r & db' & Hrun & Htable).
  exists db'. split.
  { unfold databaseInitCommand, Eff.bind, Eff.mapError. by rewrite Hrun. }
  rewrite databaseStatusCommand_spec, Htable. reflexivity.
Qed.

(** ** The later revision of the table lifecycle *)



(** ** What the service accepts *)

(** X26. [validateByKey] accepts exactly these writes: a base URL that
    matches the pattern of the schema; a request limit from whose front
    [parseInt] reads an integer from 1 to 10; any start date at all; a
    directory that is not the empty string; a database path that ends in
    [.db].  Every other key and value is rejected. *)
Theorem validateByKey_accepts_exactly {Pf : Platform} (k v : string) :
  validateByKey k v = Success tt
  ↔ (k = "thetadata.baseUrl" ∧ Js.test_httpUrl v = true)
    ∨ (k = "thetadata.maxConcurrentRequests"
       ∧ ∃ z, Js.parseInt v = Int z ∧ 1 ≤ z ≤ 10)
    ∨ k = "processing.startDate"
    ∨ ((k = "processing.outputDirectory" ∨ k = "processing.tempDirectory")
       ∧ v ≠ "")
    ∨ (k = "database.path" ∧ v ≠ "" ∧ Js.endsWith v ".db" = true).
Proof.
  assert (Hlen : bool_decide (1 ≤ String.length v)%nat = true ↔ v ≠ "").
  { rewrite bool_decide_eq_true. destruct v; cbn; [|split; [done|lia]].
    split; [lia|done]. }
  unfold validateByKey, ConfigKeys.THETADATA_BASE_URL,
    ConfigKeys.PROCESSING_START_DATE, ConfigKeys.PROCESSING_OUTPUT_DIRECTORY,
    ConfigKeys.PROCESSING_TEMP_DIRECTORY, ConfigKeys.DATABASE_PATH,
    ConfigKeys.THETADATA_MAX_CONCURRENT_REQUESTS.
  destruct (decide (k = "thetadata.baseUrl")) as [->|Hbase].
  { rewrite bool_decide_true by done.
    unfold validateThetaDataUrl, Schema.decodeBaseUrl, Schema.refine.
    destruct (Js.test_httpUrl v); cbn; split; try done.
    - intros _. by left.
    - intros [[_ ?]|[[? _]|[?|[[[?|?] _]|[? _]]]]]; done. }
  rewrite (bool_decide_false (k = "thetadata.baseUrl")) by done.
  destruct (decide (k = "processing.startDate")) as [->|Hdate].
  { rewrite bool_decide_true by done. cbn. split; [|done].
    intros _. right. right. by left. }
  rewrite (bool_decide_false (k = "processing.startDate")) by done.
  destruct (decide (k = "processing.outputDirectory"
                    ∨ k = "processing.tempDirectory")) as [Hdir|Hdir].
  { assert (Hor : bool_decide (k = "processing.outputDirectory")
                  || bool_decide (k = "processing.tempDirectory") = true).
    { apply orb_true_iff. rewrite !bool_decide_eq_true. exact Hdir. }
    rewrite Hor. unfold validateDirectoryPath, Schema.minLength1, Schema.refine.
    destruct (bool_decide (1 ≤ String.length v)%nat) eqn:Hv; cbn; split; try done.
    - intros _. right. right. right. left. split; [done|]. by apply Hlen.
    - intros [[? _]|[[? _]|[?|[[_ Hne]|[? _]]]]]; try (destruct Hdir; congruence).
      apply Hlen in Hne. congruence. }
  assert (Hor : bool_decide (k = "processing.outputDirectory")
                || bool_decide (k = "processing.tempDirectory") = false).
  { apply orb_false_iff. rewrite !bool_decide_eq_false. tauto. }
  rewrite Hor.
  destruct (decide (k = "database.path")) as [->|Hpath].
  { rewrite bool_decide_true by done.
    unfold validateDatabasePath, Schema.decodeDatabasePath, Schema.minLength1,
      Schema.refine, Js.test_dbSuffix.
    destruct (bool_decide (1 ≤ String.length v)%nat) eqn:Hv; cbn.
    - destruct (Js.endsWith v ".db") eqn:He; cbn; split; try done.
      + intros _. do 4 right. split; [done|]. split; [by apply Hlen | done].
      + intros [[? _]|[[? _]|[?|[[[?|?] _]|[_ [_ ?]]]]]]; done.
    - split; [done|].
      intros [[? _]|[[? _]|[?|[[[?|?] _]|[_ [Hne _]]]]]]; try done.
      apply Hlen in Hne. congruence. }
  rewrite (bool_decide_false (k = "database.path")) by done.
  destruct (decide (k = "thetadata.maxConcurrentRequests")) as [->|Hmax].
  { rewrite bool_decide_true by done. cbv zeta.
    destruct (Js.parseInt v) as [|z].
    - split; [done|].
      intros [[? _]|[[_ (z & ? & _)]|[?|[[[?|?] _]|[? _]]]]]; done.
    - destruct (decide (1 ≤ z ≤ 10)) as [Hz|Hz].
      + rewrite (bool_decide_false (z < 1)), (bool_decide_false (z > 10)) by lia.
        cbn. split; [|done]. intros _. right. left. eauto.
      + assert (Hout : bool_decide (z < 1) || bool_decide (z > 10) = true).
        { apply orb_true_iff. rewrite !bool_decide_eq_true. lia. }
        rewrite Hout. split; [done|].
        intros [[? _]|[[_ (z' & [= <-] & ?)]|[?|[[[?|?] _]|[? _]]]]]; done. }
  rewrite (bool_decide_false (k = "thetadata.maxConcurrentRequests")) by done.
  split; [done|].
  intros [[? _]|[[? _]|[?|[[Hk _]|[? _]]]]]; try done.
Qed.

(** X27. After [initializeConfigurationDatabase] the service works on
    every database: the initialization succeeds and keeps every table
    with its rows, and any write that [validateByKey] accepts then
    succeeds and reads back as written. *)
Theorem initialize_then_configure {Pf : Platform} (now k v : string) (db : Database) :
  validateByKey k v = Success tt →
  ∃ db1 db2,
    initializeConfigurationDatabase db = (Success tt, db1)
    ∧ (∀ n t, db !! n = Some t → db1 !! n = Some t)
    ∧ setConfigurationValue now k v db1 = (Success tt, db2)
    ∧ getConfigurationValue k db2 = (Success v, db2).
Proof.
  intros Hok. unfold initializeConfigurationDatabase, createConfigurationTable.
  rewrite create_table_spec.
  set (db1 := match db !! "configuration" with
              | Some _ => db
              | None => <["configuration" := ∅]> db
              end).
  assert (Htable : ∃ t, db1 !! "configuration" = Some t).
  { subst db1. destruct (db !! "configuration") as [t|] eqn:Ht; [eauto|].
    exists ∅. apply lookup_insert_eq. }
  destruct Htable as [t1 Ht1].
  eexists db1, _. split; [reflexivity|].
  split.
  { intros n t Hn. subst db1.
    destruct (db !! "configuration") eqn:Ht; [done|].
    rewrite lookup_insert_ne; [done|]. intros <-. congruence. }
  rewrite setConfigurationValue_accepted by done.
  rewrite setConfiguration_spec, Ht1. split; [reflexivity|].
  unfold getConfigurationValue.
  by rewrite getConfiguration_spec, !lookup_insert_eq.
Qed.

Lemma initialize_then_configure_witness :
  ∃ db1 db2,
    initializeConfigurationDatabase freshDb = (Success tt, db1)
    ∧ setConfigurationValue (Pf := Reference.platform) sampleNow
        "thetadata.baseUrl" "https://api.thetadata.com" db1 = (Success tt, db2)
    ∧ getConfigurationValue "thetadata.baseUrl" db2
      = (Success "https://api.thetadata.com", db2).
Proof.
  destruct (initialize_then_configure (Pf := Reference.platform) sampleNow
              "thetadata.baseUrl" "https://api.thetadata.com" freshDb)
    as (db1 & db2 & Hinit & _ & Hset & Hget).
  - vm_compute. reflexivity.
  - by exists db1, db2.
Defined.

Lemma validateByKey_accepts_exactly_witness :
  validateByKey (Pf := Reference.platform) "thetadata.maxConcurrentRequests" "5abc"
  = Success tt.
Proof.
  apply (proj2 (validateByKey_accepts_exactly (Pf := Reference.platform)
                  "thetadata.maxConcurrentRequests" "5abc")).
  right. left. split; [reflexivity|]. exists 5. split; [reflexivity | lia].
Defined.
